(** * The cleaning pipeline of [data_cleaning.py]

    A shallow embedding of class [DataCleaner] and of the part of pandas
    it calls, with the properties of its operations.

    Conventions of the embedding:
    - a pandas [DataFrame] is its row labels (the index) and its ordered
      columns; a column is a name, a dtype and its cells;
    - a cell is a Python object: the missing marker ([None], [nan], [NaT]),
      a number, a [str] or a timestamp.  Numbers are exact rationals, so
      [1] and [1.0] are the same cell, as they are for Python's [==] and
      [hash]; IEEE rounding and the infinities are outside the model;
    - a [str] is a sequence of 8-bit characters; the characters above 127
      have no case and are not whitespace;
    - pandas is the one without copy-on-write (1.x, 2.x), where a fill
      in place through [df[col]] reaches the frame;
    - a method returns the cleaner ([Returned]) or leaves it in the state
      reached when an exception escapes ([Raised]). *)

From Stdlib Require Import Ascii QArith Qcanon Qround.
From Stdlib Require String.
From stdpp Require Import base tactics option list strings numbers sorting pretty.


(** ** Python strings *)

Module Py.

Definition code (c : ascii) : N := N_of_ascii c.

(** [str.isspace] on one character: tab, line feed, vertical tab, form
    feed, carriage return, the four separators 28 to 31 and the space. *)
Definition isspace (c : ascii) : bool :=
  let n := code c in
  ((9 <=? n) && (n <=? 13) || (28 <=? n) && (n <=? 32))%N.

Definition isupper (c : ascii) : bool :=
  let n := code c in ((65 <=? n) && (n <=? 90))%N.

Definition islower (c : ascii) : bool :=
  let n := code c in ((97 <=? n) && (n <=? 122))%N.

(** A cased character is a letter. *)
Definition iscased (c : ascii) : bool := isupper c || islower c.

Definition to_lower (c : ascii) : ascii :=
  if isupper c then ascii_of_N (code c + 32) else c.

Definition to_upper (c : ascii) : ascii :=
  if islower c then ascii_of_N (code c - 32) else c.

(** [s.lower()] *)
Fixpoint lower (s : string) : string :=
  match s with
  | EmptyString => EmptyString
  | String c s' => String (to_lower c) (lower s')
  end.

(** [s.lstrip()] *)
Fixpoint lstrip (s : string) : string :=
  match s with
  | EmptyString => EmptyString
  | String c s' => if isspace c then lstrip s' else s
  end.

(** [s.rstrip()] *)
Fixpoint rstrip (s : string) : string :=
  match s with
  | EmptyString => EmptyString
  | String c s' =>
      match rstrip s' with
      | EmptyString => if isspace c then EmptyString else String c EmptyString
      | r => String c r
      end
  end.

(** [s.strip()] *)
Definition strip (s : string) : string := lstrip (rstrip s).

(** [s.title()]: a cased character is upper-cased when the character
    before it is not cased, and lower-cased otherwise. *)
Fixpoint title_from (previous_is_cased : bool) (s : string) : string :=
  match s with
  | EmptyString => EmptyString
  | String c s' =>
      String (if previous_is_cased then to_lower c else to_upper c)
             (title_from (iscased c) s')
  end.

Definition title (s : string) : string := title_from false s.

(** [re.sub(r'\s+', ' ', s)]: every maximal run of whitespace becomes one
    space.  [in_run] tells that the character before was whitespace. *)
Fixpoint collapse_from (in_run : bool) (s : string) : string :=
  match s with
  | EmptyString => EmptyString
  | String c s' =>
      if isspace c
      then (if in_run then collapse_from true s'
            else String " "%char (collapse_from true s'))
      else String c (collapse_from false s')
  end.

Definition collapse_whitespace (s : string) : string := collapse_from false s.

(** [sub in s] *)
Fixpoint contains (sub s : string) : bool :=
  String.prefix sub s ||
  match s with
  | EmptyString => false
  | String _ s' => contains sub s'
  end.

(** [s.endswith(suffix)] *)
Definition endswith (s suffix : string) : bool :=
  String.prefix (String.rev suffix) (String.rev s).

End Py.

(** ** Cells, columns and frames *)

(** A cell.  [NaN] is the missing marker ([None], [float('nan')], [NaT]);
    a Python [bool] is the number 1 or 0, as [bool] is a subclass of [int]. *)
Inductive value :=
  | NaN
  | Num (q : Qc)
  | Str (s : string)
  | Timestamp (t : Z).

Global Instance value_eq_dec : EqDecision value.
Proof. solve_decision. Defined.

Global Instance value_inhabited : Inhabited value := populate NaN.

(** [pd.isnull(v)] *)
Definition isnull (v : value) : bool :=
  match v with NaN => true | _ => false end.

Definition notnull (v : value) : bool := negb (isnull v).

Inductive dtype := int64 | float64 | bool_ | object | datetime64.

Global Instance dtype_eq_dec : EqDecision dtype.
Proof. solve_decision. Defined.

Record Series := mkSeries {
  col_name : string;
  col_dtype : dtype;
  col_values : list value
}.

Global Instance Series_eq_dec : EqDecision Series.
Proof. solve_decision. Defined.

Record DataFrame := mkFrame {
  index : list nat;
  columns : list Series
}.

Global Instance DataFrame_eq_dec : EqDecision DataFrame.
Proof. solve_decision. Defined.

(** [len(df)] *)
Definition len (df : DataFrame) : nat := length (index df).

(** [df.columns] as names *)
Definition column_names (df : DataFrame) : list string :=
  map col_name (columns df).

(** [df.empty]: no column or no row *)
Definition empty (df : DataFrame) : bool :=
  bool_decide (columns df = []) || bool_decide (index df = []).

(** [df[col]]: the column of that name *)
Definition getitem (df : DataFrame) (col : string) : option Series :=
  find (λ s, bool_decide (col_name s = col)) (columns df).

(** [col in df.columns] *)
Definition has_column (df : DataFrame) (col : string) : bool :=
  bool_decide (col ∈ column_names df).

(** [df[col] = cells], for an existing column; the dtype is the one of the
    assigned series *)
Definition setitem (df : DataFrame) (col : string) (dt : dtype)
    (cells : list value) : DataFrame :=
  {| index := index df;
     columns := map (λ s, if bool_decide (col_name s = col)
                          then mkSeries col dt cells else s) (columns df) |}.

(** Selection by a boolean mask: the items whose flag is set *)
Fixpoint select {A} (mask : list bool) (l : list A) : list A :=
  match mask, l with
  | b :: mask', x :: l' =>
      if b then x :: select mask' l' else select mask' l'
  | _, _ => []
  end.

(** [df[mask]]: the rows whose flag is set, with their labels *)
Definition getitem_mask (df : DataFrame) (mask : list bool) : DataFrame :=
  {| index := select mask (index df);
     columns := map (λ s, mkSeries (col_name s) (col_dtype s)
                            (select mask (col_values s))) (columns df) |}.

(** The rows of some columns of a frame of [n] rows, as tuples of cells *)
Definition rows_of (n : nat) (cols : list Series) : list (list value) :=
  foldr (λ s acc, zip_with cons (col_values s) acc) (replicate n []) cols.

Definition rows (df : DataFrame) : list (list value) :=
  rows_of (len df) (columns df).

(** A frame is rectangular when every column has one cell per row label,
    and a frame without columns has no rows: the rows of a table are the
    tuples of its cells. *)
Definition rectangular (df : DataFrame) : Prop :=
  Forall (λ s, length (col_values s) = len df) (columns df) ∧
  (columns df = [] → index df = []).

Definition unique_names (df : DataFrame) : Prop := NoDup (column_names df).

(** What a column of each dtype holds: [int64] and [bool] columns have no
    missing cell *)
Definition fits (dt : dtype) (v : value) : bool :=
  match dt, v with
  | int64, Num q => bool_decide (Qden q = 1%positive)
  | float64, (Num _ | NaN) => true
  | bool_, Num q => bool_decide (q = 0%Qc ∨ q = 1%Qc)
  | object, _ => true
  | datetime64, (Timestamp _ | NaN) => true
  | _, _ => false
  end.

Definition well_typed (df : DataFrame) : Prop :=
  Forall (λ s, forallb (fits (col_dtype s)) (col_values s) = true) (columns df).

Global Instance rectangular_dec df : Decision (rectangular df).
Proof. unfold rectangular. apply _. Defined.

Global Instance unique_names_dec df : Decision (unique_names df).
Proof. unfold unique_names. apply _. Defined.

Global Instance well_typed_dec df : Decision (well_typed df).
Proof. unfold well_typed. apply _. Defined.

(** ** The part of pandas the cleaner calls *)

(** [duplicated(keep='first')]: the flag of an item is set when an equal
    item comes before it; the missing marker equals itself here *)
Fixpoint duplicated_from {A} `{EqDecision A} (seen l : list A) : list bool :=
  match l with
  | [] => []
  | x :: l' =>
      if decide (x ∈ seen) then true :: duplicated_from seen l'
      else false :: duplicated_from (x :: seen) l'
  end.

Definition duplicated {A} `{EqDecision A} (l : list A) : list bool :=
  duplicated_from [] l.

(** [mask.sum()] *)
Definition count_true (mask : list bool) : nat :=
  length (filter (λ b, b = true) mask).

(** [s.isnull().sum()] *)
Definition count_null (l : list value) : nat := count_true (map isnull l).

(** [s.nunique()]: the number of distinct present values *)
Definition nunique (l : list value) : nat :=
  count_true (map negb (duplicated (filter (λ v, notnull v = true) l))).

(** [s.fillna(v)] *)
Definition fillna (v : value) (l : list value) : list value :=
  map (λ x, if isnull x then v else x) l.

(** A float result of pandas: [None] is [nan] *)
Definition of_float (x : option Qc) : value :=
  match x with Some q => Num q | None => NaN end.

Definition numbers (l : list value) : list Qc :=
  omap (λ v, match v with Num q => Some q | _ => None end) l.

(** [s.median()], over the present values: the middle one of the sorted
    values, or the mean of the two middle ones; [nan] when there is none *)
Definition median (l : list value) : option Qc :=
  let xs := merge_sort Qcle (numbers l) in
  let n := length xs in
  if Nat.odd n then xs !! (n / 2)
  else
    a ← xs !! (n / 2 - 1);
    b ← xs !! (n / 2);
    Some ((a + b) / Q2Qc 2)%Qc.

(** [s.quantile(num/den)], linear interpolation between the two sorted
    present values around position [(n - 1) * num / den] *)
Definition quantile (num den : nat) (l : list value) : option Qc :=
  let xs := merge_sort Qcle (numbers l) in
  let n := length xs in
  let lo := ((n - 1) * num / den)%nat in
  let r := ((n - 1) * num mod den)%nat in
  a ← xs !! lo;
  if bool_decide (r = 0)%nat then Some a
  else
    b ← xs !! S lo;
    Some (a + (b - a) * (Qc_of_Z (Z.of_nat r) / Qc_of_Z (Z.of_nat den)))%Qc.

(** Comparisons of a cell with a float; a comparison with [nan] on either
    side is false *)
Definition lt_float (v : value) (x : option Qc) : bool :=
  match v, x with
  | Num q, Some b => bool_decide (q < b)%Qc
  | _, _ => false
  end.

Definition gt_float (v : value) (x : option Qc) : bool :=
  match v, x with
  | Num q, Some b => bool_decide (b < q)%Qc
  | _, _ => false
  end.

Definition ge_float (v : value) (x : option Qc) : bool :=
  match v, x with
  | Num q, Some b => bool_decide (b ≤ q)%Qc
  | _, _ => false
  end.

(** The order numpy sorts cells of one kind by *)
Definition value_le (a b : value) : Prop :=
  match a, b with
  | Num p, Num q => (p ≤ q)%Qc
  | Str s, Str t => String.le s t
  | Timestamp s, Timestamp t => (s ≤ t)%Z
  | _, _ => True
  end.

Global Instance value_le_dec : RelDecision value_le.
Proof. intros [] []; simpl; apply _. Defined.

Definition same_kind (a b : value) : bool :=
  match a, b with
  | Num _, Num _ | Str _, Str _ | Timestamp _, Timestamp _ => true
  | _, _ => false
  end.

(** Cells that Python can order among themselves *)
Definition sortable (l : list value) : bool :=
  match l with
  | [] => true
  | a :: _ => forallb (same_kind a) l
  end.

(** [s.unique()]: the values in the order they first appear *)
Definition unique {A} `{EqDecision A} (l : list A) : list A :=
  select (map negb (duplicated l)) l.

(** How often [v] occurs in [l] *)
Definition occurrences (v : value) (l : list value) : nat :=
  length (filter (λ x, x = v) l).

(** [s.mode()]: the present values of the highest count, sorted; when
    Python cannot order them, numpy's sort fails, pandas warns and they
    stay in the order they first appear *)
Definition mode (l : list value) : list value :=
  let present := filter (λ v, notnull v = true) l in
  let candidates := unique present in
  let best := max_list (map (λ v, occurrences v present) candidates) in
  let modes := filter (λ v, occurrences v present = best) candidates in
  if sortable modes then merge_sort value_le modes else modes.

(** ** The cleaner *)

Record DataCleaner := mkCleaner {
  df : DataFrame;
  name : string;
  cleaning_report : list string;
  stdout : list string
}.

(** [DataCleaner(df, name)]: the cleaner works on a copy of the frame *)
Definition init (d : DataFrame) (n : string) : DataCleaner :=
  {| df := d; name := n; cleaning_report := []; stdout := [] |}.

(** [self.df = d] *)
Definition set_df (d : DataFrame) (self : DataCleaner) : DataCleaner :=
  {| df := d; name := name self;
     cleaning_report := cleaning_report self; stdout := stdout self |}.

(** The cells of [self.df[col]]; no cell when there is no such column *)
Definition column (d : DataFrame) (col : string) : list value :=
  match getitem d col with Some s => col_values s | None => [] end.

(** [self.df[col].dtype] *)
Definition dtype_of (d : DataFrame) (col : string) : dtype :=
  match getitem d col with Some s => col_dtype s | None => object end.

(** [df.select_dtypes(include=...).columns] *)
Definition select_dtypes (include : list dtype) (d : DataFrame) : list string :=
  map col_name (filter (λ s, col_dtype s ∈ include) (columns d)).

Inductive exn :=
  | ZeroDivisionError
  | KeyError (missing : list string).

Inductive result (A : Type) :=
  | Ok (a : A)
  | Error (e : exn).
Arguments Ok {A} a.
Arguments Error {A} e.

(** What a call of a method leaves: the cleaner it returns, or the
    exception that escapes with the state the cleaner is left in *)
Inductive outcome :=
  | Returned (self : DataCleaner)
  | Raised (e : exn) (self : DataCleaner).

Definition state (o : outcome) : DataCleaner :=
  match o with Returned self | Raised _ self => self end.

Definition and_then (o : outcome) (k : DataCleaner → outcome) : outcome :=
  match o with
  | Returned self => k self
  | Raised e self => Raised e self
  end.

(** [for x in l: body] *)
Fixpoint for_each {A} (l : list A) (body : A → DataCleaner → outcome)
    (self : DataCleaner) : outcome :=
  match l with
  | [] => Returned self
  | x :: l' => and_then (body x self) (for_each l' body)
  end.

(** [log] *)
Definition log (message : string) (self : DataCleaner) : DataCleaner :=
  {| df := df self; name := name self;
     cleaning_report := cleaning_report self ++ [message];
     stdout := stdout self ++ ["[" +:+ name self +:+ "] " +:+ message] |}.

(** *** [remove_duplicates] *)

(** The [subset] argument: [None], or the columns to compare, at least
    one *)
Inductive subset_arg :=
  | all_columns
  | these (col : string) (cols : list string).

(** [df.duplicated(subset)] of a frame that is not empty; a name that is
    no column is a [KeyError] *)
Definition frame_duplicated (subset : subset_arg) (d : DataFrame)
    : result (list bool) :=
  match subset with
  | all_columns => Ok (duplicated (rows d))
  | these c cs =>
      let missing := filter (λ n, n ∉ column_names d) (c :: cs) in
      if bool_decide (missing = []) then
        Ok (duplicated
              (rows_of (len d)
                 (filter (λ s, col_name s ∈ c :: cs) (columns d))))
      else Error (KeyError missing)
  end.

(** [df.drop_duplicates(subset)]: an empty frame is returned as it is,
    otherwise the rows that are no duplicate of an earlier row are kept *)
Definition drop_duplicates (subset : subset_arg) (d : DataFrame)
    : result DataFrame :=
  if empty d then Ok d
  else
    match frame_duplicated subset d with
    | Ok mask => Ok (getitem_mask d (map negb mask))
    | Error e => Error e
    end.

Definition remove_duplicates (subset : subset_arg) (self : DataCleaner)
    : outcome :=
  let initial_count := Z.of_nat (len (df self)) in
  match drop_duplicates subset (df self) with
  | Error e => Raised e self
  | Ok d =>
      let self := set_df d self in
      let removed := (initial_count - Z.of_nat (len (df self)))%Z in
      if bool_decide (0 < removed)%Z then
        Returned (log ("Removed " +:+ pretty removed +:+ " duplicate rows") self)
      else Returned self
  end.

(** *** [handle_missing_values] *)

(** [self.df.isnull().sum().sum()] *)
Definition missing_count (d : DataFrame) : nat :=
  sum_list (map (λ s, count_null (col_values s)) (columns d)).

(** The body of the loop of strategy ['auto'] *)
Definition fill_column (col : string) (self : DataCleaner) : DataCleaner :=
  if bool_decide (0 < count_null (column (df self) col)) then
    if bool_decide (dtype_of (df self) col ∈ [int64; float64]) then
      let filled := fillna (of_float (median (column (df self) col)))
                      (column (df self) col) in
      log ("  - Filled " +:+ col +:+ " (numeric) with median")
        (set_df (setitem (df self) col (dtype_of (df self) col) filled) self)
    else
      match mode (column (df self) col) with
      | m :: _ =>
          let filled := fillna m (column (df self) col) in
          log ("  - Filled " +:+ col +:+ " (categorical) with mode")
            (set_df (setitem (df self) col (dtype_of (df self) col) filled) self)
      | [] => self
      end
  else self.

(** [df.dropna()]: the rows without a missing cell *)
Definition dropna (d : DataFrame) : DataFrame :=
  getitem_mask d (map (forallb notnull) (rows d)).

Definition handle_missing_values (strategy : string) (self : DataCleaner)
    : DataCleaner :=
  let missing_count := missing_count (df self) in
  if bool_decide (missing_count = 0) then log "No missing values found" self
  else
    let self :=
      log ("Found " +:+ pretty missing_count +:+ " missing values") self in
    if bool_decide (strategy = "auto") then
      foldl (λ self col, fill_column col self) self (column_names (df self))
    else if bool_decide (strategy = "drop") then
      log "Dropped rows with missing values" (set_df (dropna (df self)) self)
    else self.

(** *** [standardize_text_columns] *)

(** [x.strip() if isinstance(x, str) else x] *)
Definition strip_cell (x : value) : value :=
  match x with Str s => Str (Py.strip s) | _ => x end.

(** [x.title() if isinstance(x, str) else x] *)
Definition title_cell (x : value) : value :=
  match x with Str s => Str (Py.title s) | _ => x end.

(** The body of the loop.  [unique_ratio] is the quotient of two integers:
    Python raises [ZeroDivisionError] when the frame has no row, and the
    quotient is below 0.5 when twice the number of distinct values is
    below the number of rows.  The column keeps dtype [object]; pandas may
    infer a narrower dtype for a column in which no string is left, with
    the same cells. *)
Definition standardize_text_column (col : string) (self : DataCleaner)
    : outcome :=
  let self :=
    set_df (setitem (df self) col object
              (map strip_cell (column (df self) col))) self in
  if bool_decide (len (df self) = 0) then Raised ZeroDivisionError self
  else if bool_decide (2 * nunique (column (df self) col) < len (df self)) then
    let self :=
      set_df (setitem (df self) col object
                (map title_cell (column (df self) col))) self in
    Returned (log ("Standardized text in '" +:+ col +:+ "' column") self)
  else Returned self.

Definition standardize_text_columns (self : DataCleaner) : outcome :=
  for_each (select_dtypes [object] (df self)) standardize_text_column self.

(** *** [clean_numeric_columns] *)

Definition keywords : list string :=
  ["id"; "cost"; "time"; "hours"; "mins"; "size"; "floor"].

Definition float_sub (x y : option Qc) : option Qc :=
  a ← x; b ← y; Some (a - b)%Qc.

Definition float_add (x y : option Qc) : option Qc :=
  a ← x; b ← y; Some (a + b)%Qc.

Definition float_scale (k : Z) (x : option Qc) : option Qc :=
  a ← x; Some (Qc_of_Z k * a)%Qc.

(** The first half of the body of the loop: the rows with a negative
    value in a column whose name holds a keyword *)
Definition remove_negative (col : string) (self : DataCleaner) : DataCleaner :=
  if existsb (λ keyword, Py.contains keyword (Py.lower col)) keywords then
    let negative_count :=
      count_true (map (λ v, lt_float v (Some 0%Qc)) (column (df self) col)) in
    if bool_decide (0 < negative_count) then
      let kept := map (λ v, ge_float v (Some 0%Qc)) (column (df self) col) in
      log ("Removed " +:+ pretty negative_count +:+
           " rows with negative values in '" +:+ col +:+ "'")
        (set_df (getitem_mask (df self) kept) self)
    else self
  else self.

(** The second half: the extreme outliers are counted and reported when
    they are fewer than 5% of the rows *)
Definition flag_outliers (col : string) (self : DataCleaner) : DataCleaner :=
  let Q1 := quantile 1 4 (column (df self) col) in
  let Q3 := quantile 3 4 (column (df self) col) in
  let IQR := float_sub Q3 Q1 in
  let lower_bound := float_sub Q1 (float_scale 3 IQR) in
  let upper_bound := float_add Q3 (float_scale 3 IQR) in
  let outliers :=
    count_true (map (λ v, lt_float v lower_bound || gt_float v upper_bound)
                  (column (df self) col)) in
  if bool_decide (0 < outliers) && bool_decide (20 * outliers < len (df self))
  then log ("Found " +:+ pretty outliers +:+ " extreme outliers in '" +:+ col
            +:+ "' (not removed, flagged only)") self
  else self.

Definition clean_numeric_columns (self : DataCleaner) : DataCleaner :=
  let numeric_cols := select_dtypes [int64; float64] (df self) in
  foldl (λ self col, flag_outliers col (remove_negative col self))
    self numeric_cols.

(** *** [parse_dates] *)

(** [pd.to_datetime(s, errors='coerce')] on the cells of a column: the
    message of the exception it raises, or the converted cells, which are
    timestamps and [NaT], one per cell, [NaT] where the cell was missing.
    Which strings are dates is left to pandas. *)
Class ToDatetime := {
  to_datetime : list value → string + list value;
  to_datetime_length l r :
    to_datetime l = inr r → length r = length l;
  to_datetime_missing l r i :
    to_datetime l = inr r → l !! i = Some NaN → r !! i = Some NaN
}.

Section parse_dates.
Context `{ToDatetime}.

(** The body of the loop, with its [try] and [except Exception] *)
Definition parse_date_column (col : string) (self : DataCleaner) : DataCleaner :=
  if has_column (df self) col then
    match to_datetime (column (df self) col) with
    | inr parsed =>
        let self := set_df (setitem (df self) col datetime64 parsed) self in
        let invalid_dates := count_null (column (df self) col) in
        if bool_decide (0 < invalid_dates) then
          log ("Found " +:+ pretty invalid_dates +:+ " invalid dates in '"
               +:+ col +:+ "'") self
        else log ("Parsed '" +:+ col +:+ "' as datetime") self
    | inl e =>
        log ("Could not parse '" +:+ col +:+ "' as date: " +:+ e) self
    end
  else self.

Definition parse_dates (date_columns : option (list string))
    (self : DataCleaner) : DataCleaner :=
  let date_columns :=
    match date_columns with
    | Some l => l
    | None => filter (λ col, Py.contains "date" (Py.lower col) = true)
                (column_names (df self))
    end in
  foldl (λ self col, parse_date_column col self) self date_columns.

End parse_dates.

(** *** [validate_ids] *)

(** The body of the loop *)
Definition validate_id_column (col : string) (self : DataCleaner) : DataCleaner :=
  if has_column (df self) col then
    let self :=
      if Py.endswith col "_ID" || bool_decide (col = "Ticket_ID")
         || bool_decide (col = "Cleaner_ID")
      then
        let duplicates := count_true (duplicated (column (df self) col)) in
        if bool_decide (0 < duplicates) then
          log ("WARNING: Found " +:+ pretty duplicates +:+ " duplicate IDs in '"
               +:+ col +:+ "'") self
        else self
      else self in
    let missing := count_null (column (df self) col) in
    if bool_decide (0 < missing) then
      log ("WARNING: Found " +:+ pretty missing +:+ " missing values in '"
           +:+ col +:+ "'") self
    else self
  else self.

Definition validate_ids (id_columns : option (list string))
    (self : DataCleaner) : DataCleaner :=
  let id_columns :=
    match id_columns with
    | Some l => l
    | None =>
        filter (λ col, Py.contains "id" (Py.lower col) = true ∧
                       Py.contains "assigned" (Py.lower col) = false)
          (column_names (df self))
    end in
  foldl (λ self col, validate_id_column col self) self id_columns.

(** *** [standardize_categories] *)

(** [s.replace(mapping)] on one cell: the new value of the first key the
    cell equals *)
Definition replace_cell (mapping : list (value * value)) (x : value) : value :=
  match find (λ kv, bool_decide (kv.1 = x)) mapping with
  | Some kv => kv.2
  | None => x
  end.

(** The dtype of a column after its cells were replaced: its own when the
    new cells fit, [object] otherwise *)
Definition dtype_after (dt : dtype) (cells : list value) : dtype :=
  if forallb (fits dt) cells then dt else object.

Definition standardize_category (entry : string * list (value * value))
    (self : DataCleaner) : DataCleaner :=
  let '(col, mapping) := entry in
  if has_column (df self) col then
    let replaced := map (replace_cell mapping) (column (df self) col) in
    log ("Applied category mapping to '" +:+ col +:+ "'")
      (set_df (setitem (df self) col
                 (dtype_after (dtype_of (df self) col) replaced) replaced) self)
  else self.

Definition standardize_categories
    (category_mapping : option (list (string * list (value * value))))
    (self : DataCleaner) : DataCleaner :=
  match category_mapping with
  | Some (entry :: entries) =>
      foldl (λ self entry, standardize_category entry self) self
        (entry :: entries)
  | _ => self
  end.

(** *** [remove_extra_whitespace] *)

(** [re.sub(r'\s+', ' ', x) if isinstance(x, str) else x] *)
Definition collapse_cell (x : value) : value :=
  match x with Str s => Str (Py.collapse_whitespace s) | _ => x end.

Definition remove_extra_whitespace (self : DataCleaner) : DataCleaner :=
  foldl (λ self col,
           set_df (setitem (df self) col object
                     (map collapse_cell (column (df self) col))) self)
    self (select_dtypes [object] (df self)).

(** *** [reset_index], [get_cleaned_data], [get_report] *)

(** [df.reset_index(drop=True)]: the rows are labelled 0, 1, ... again *)
Definition reset_index (self : DataCleaner) : DataCleaner :=
  set_df {| index := seq 0 (len (df self)); columns := columns (df self) |} self.

Definition get_cleaned_data (self : DataCleaner) : DataFrame := df self.

Definition get_report (self : DataCleaner) : list string := cleaning_report self.

(** *** The operations of the cleaner *)

Inductive operation :=
  | op_remove_duplicates (subset : subset_arg)
  | op_handle_missing_values (strategy : string)
  | op_standardize_text_columns
  | op_clean_numeric_columns
  | op_parse_dates (date_columns : option (list string))
  | op_validate_ids (id_columns : option (list string))
  | op_standardize_categories
      (category_mapping : option (list (string * list (value * value))))
  | op_remove_extra_whitespace
  | op_reset_index.

(** One call of an operation on a cleaner *)
Definition call `{ToDatetime} (op : operation) (self : DataCleaner) : outcome :=
  match op with
  | op_remove_duplicates subset => remove_duplicates subset self
  | op_handle_missing_values strategy =>
      Returned (handle_missing_values strategy self)
  | op_standardize_text_columns => standardize_text_columns self
  | op_clean_numeric_columns => Returned (clean_numeric_columns self)
  | op_parse_dates date_columns => Returned (parse_dates date_columns self)
  | op_validate_ids id_columns => Returned (validate_ids id_columns self)
  | op_standardize_categories category_mapping =>
      Returned (standardize_categories category_mapping self)
  | op_remove_extra_whitespace => Returned (remove_extra_whitespace self)
  | op_reset_index => Returned (reset_index self)
  end.

(** *** The chains of [clean_all_datasets]

    The files that are read and written are left out; each chain goes from
    a cleaner to the outcome of its last call. *)

Definition returning (f : DataCleaner → DataCleaner) (self : DataCleaner)
    : outcome :=
  Returned (f self).

Definition clean_locations (self : DataCleaner) : outcome :=
  and_then (and_then (and_then (and_then (and_then (and_then
    (remove_duplicates all_columns self)
    (returning (handle_missing_values "auto")))
    standardize_text_columns)
    (returning clean_numeric_columns))
    (returning (validate_ids (Some ["Location_ID"]))))
    (returning remove_extra_whitespace))
    (returning reset_index).

Definition clean_financials `{ToDatetime} (self : DataCleaner) : outcome :=
  and_then (and_then (and_then (and_then (and_then (and_then
    (remove_duplicates all_columns self)
    (returning (parse_dates (Some ["Date"]))))
    (returning (handle_missing_values "auto")))
    (returning clean_numeric_columns))
    (returning (validate_ids (Some ["Location_ID"]))))
    (returning remove_extra_whitespace))
    (returning reset_index).

Definition clean_staff (self : DataCleaner) : outcome :=
  and_then (and_then (and_then (and_then (and_then (and_then
    (remove_duplicates all_columns self)
    (returning (handle_missing_values "auto")))
    standardize_text_columns)
    (returning clean_numeric_columns))
    (returning (validate_ids (Some ["Cleaner_ID"; "Assigned_Location_ID"]))))
    (returning remove_extra_whitespace))
    (returning reset_index).

Definition clean_tickets `{ToDatetime} (self : DataCleaner) : outcome :=
  and_then (and_then (and_then (and_then (and_then (and_then (and_then
    (remove_duplicates all_columns self)
    (returning (parse_dates (Some ["Date_reported"]))))
    (returning (handle_missing_values "auto")))
    standardize_text_columns)
    (returning clean_numeric_columns))
    (returning
       (validate_ids (Some ["Ticket_ID"; "Location_ID"; "Staff_assigned"]))))
    (returning remove_extra_whitespace))
    (returning reset_index).

(** ** Example tables *)

Definition int (n : Z) : value := Num (Qc_of_Z n).

(** [Status = [" open ", "OPEN", "closed"]] *)
Definition status_table : DataFrame :=
  {| index := [0; 1; 2];
     columns := [mkSeries "Status" object
                   [Str " open "; Str "OPEN"; Str "closed"]] |}.

(** A table read from a file that holds a header and no row *)
Definition header_only : DataFrame :=
  {| index := []; columns := [mkSeries "Status" object []] |}.

(** [Cost = [-5, 10, 20]] *)
Definition cost_table : DataFrame :=
  {| index := [0; 1; 2];
     columns := [mkSeries "Cost" int64 [int (-5); int 10; int 20]] |}.

(** [Cost = [-5.0, nan, 10.0]] *)
Definition cost_with_missing : DataFrame :=
  {| index := [0; 1; 2];
     columns := [mkSeries "Cost" float64 [int (-5); NaN; int 10]] |}.

(** [Ticket_ID = ["T1", "T1", "T2"]] *)
Definition ticket_table : DataFrame :=
  {| index := [0; 1; 2];
     columns := [mkSeries "Ticket_ID" object [Str "T1"; Str "T1"; Str "T2"]] |}.

(** Two different rows, the second with spaces to collapse *)
Definition room_table : DataFrame :=
  {| index := [0; 1];
     columns := [mkSeries "Room" object [Str "Lobby"; Str "Main  Hall"]] |}.

(** [Date = ["2024-01-05", "not-a-date"]] *)
Definition dates_table : DataFrame :=
  {| index := [0; 1];
     columns := [mkSeries "Date" object [Str "2024-01-05"; Str "not-a-date"]] |}.

(** [Date = ["2024-01-05", None]] *)
Definition dates_with_missing : DataFrame :=
  {| index := [0; 1];
     columns := [mkSeries "Date" object [Str "2024-01-05"; NaN]] |}.

(** [Hours_worked = [4.0, nan, 8.0]], [Shift = ["Night", None, "Night"]],
    and a column of notes that are all missing *)
Definition staff_table : DataFrame :=
  {| index := [0; 1; 2];
     columns := [mkSeries "Hours_worked" float64 [int 4; NaN; int 8];
                 mkSeries "Shift" object [Str "Night"; NaN; Str "Night"];
                 mkSeries "Notes" object [NaN; NaN; NaN]] |}.

(** Five shifts, written in different ways *)
Definition shift_table : DataFrame :=
  {| index := [0; 1; 2; 3; 4];
     columns := [mkSeries "Shift" object
                   [Str " night"; Str "NIGHT "; Str "night"; Str "night";
                    Str "night"]] |}.

(** ** A conversion to dates for the examples

    It reads the ISO dates [YYYY-MM-DD] as nanoseconds since 1970-01-01,
    keeps timestamps, reads a number as nanoseconds, turns any other cell
    into [NaT] and never raises. *)

Definition digit (c : ascii) : option Z :=
  let n := Py.code c in
  if ((48 <=? n) && (n <=? 57))%N then Some (Z.of_N n - 48)%Z else None.

Definition is_leap (y : Z) : bool :=
  ((y mod 4 =? 0) && (negb (y mod 100 =? 0) || (y mod 400 =? 0)))%Z.

Definition days_in_month (y m : Z) : Z :=
  if (m =? 2)%Z then (if is_leap y then 29 else 28)%Z
  else if ((m =? 4) || (m =? 6) || (m =? 9) || (m =? 11))%Z then 30%Z
  else 31%Z.

(** The days from 1970-01-01 to a date of the Gregorian calendar *)
Definition days_from_civil (y m d : Z) : Z :=
  let y := (if m <=? 2 then y - 1 else y)%Z in
  let era := (y / 400)%Z in
  let yoe := (y - era * 400)%Z in
  let doy := ((153 * (if 2 <? m then m - 3 else m + 9) + 2) / 5 + d - 1)%Z in
  let doe := (yoe * 365 + yoe / 4 - yoe / 100 + doy)%Z in
  (era * 146097 + doe - 719468)%Z.

Definition iso_date (s : string) : option Z :=
  match s with
  | String y1 (String y2 (String y3 (String y4 (String "-"
      (String m1 (String m2 (String "-"
        (String d1 (String d2 EmptyString))))))))) =>
      y1 ← digit y1; y2 ← digit y2; y3 ← digit y3; y4 ← digit y4;
      m1 ← digit m1; m2 ← digit m2; d1 ← digit d1; d2 ← digit d2;
      let y := (1000 * y1 + 100 * y2 + 10 * y3 + y4)%Z in
      let m := (10 * m1 + m2)%Z in
      let d := (10 * d1 + d2)%Z in
      if ((1 <=? m) && (m <=? 12) && (1 <=? d) && (d <=? days_in_month y m))%Z
      then Some (days_from_civil y m d * 86400 * 1000000000)%Z
      else None
  | _ => None
  end.

Definition convert_cell (v : value) : value :=
  match v with
  | Str s => match iso_date s with Some t => Timestamp t | None => NaN end
  | Timestamp t => Timestamp t
  | Num q => Timestamp (Qfloor q)
  | NaN => NaN
  end.

Definition iso_dates : ToDatetime.
Proof.
  refine {| to_datetime := λ l, inr (map convert_cell l) |}.
  - intros l r [= <-]. apply length_map.
  - intros l r i [= <-] Hi. rewrite list_lookup_fmap, Hi. reflexivity.
Defined.

(** A conversion that fails on every column, with the given message *)
Definition failing (message : string) : ToDatetime.
Proof.
  refine {| to_datetime := λ _, inl message |}; intros; discriminate.
Defined.

(** ** Measures used in the statements *)

(** The cells that were present and that the conversion turned into the
    missing marker: the values that failed to parse *)
Definition failed_to_parse (cells parsed : list value) : nat :=
  count_true (zip_with (λ c p, notnull c && isnull p) cells parsed).

(** The frame with every column rewritten by [f] *)
Definition map_columns (f : Series → Series) (d : DataFrame) : DataFrame :=
  {| index := index d; columns := map f (columns d) |}.

(** What a turn of the loop of [handle_missing_values('auto')] makes of
    the column it visits *)
Definition filled (s : Series) : Series :=
  if bool_decide (0 < count_null (col_values s)) then
    if bool_decide (col_dtype s ∈ [int64; float64]) then
      mkSeries (col_name s) (col_dtype s)
        (fillna (of_float (median (col_values s))) (col_values s))
    else
      match mode (col_values s) with
      | m :: _ => mkSeries (col_name s) (col_dtype s) (fillna m (col_values s))
      | [] => s
      end
  else s.

(** What a turn of the loop of [standardize_text_columns] makes of the
    column it visits, in a frame of [n] rows *)
Definition standardized (n : nat) (s : Series) : Series :=
  let stripped := map strip_cell (col_values s) in
  mkSeries (col_name s) object
    (if bool_decide (2 * nunique stripped < n)
     then map title_cell stripped else stripped).


(** The rows of a frame on the columns of a subset *)
Definition rows_on (subset : list string) (d : DataFrame) : list (list value) :=
  rows_of (len d) (filter (λ s, col_name s ∈ subset) (columns d)).

(** [Location_ID = [101, 101, 102]], [Issue_type = ["Spill", "Leakage",
    "Spill"]], [Response_time_mins = [5.0, nan, -3.0]] *)
Definition issue_table : DataFrame :=
  {| index := [0; 1; 2];
     columns := [mkSeries "Location_ID" int64 [int 101; int 101; int 102];
                 mkSeries "Issue_type" object
                   [Str "Spill"; Str "Leakage"; Str "Spill"];
                 mkSeries "Response_time_mins" float64
                   [int 5; NaN; int (-3)]] |}.

(** A string whose whitespace is single spaces: no whitespace character
    other than the space, and no two whitespace characters in a row *)
Fixpoint single_spaced_from (after_space : bool) (s : string) : bool :=
  match s with
  | EmptyString => true
  | String c s' =>
      if Py.isspace c
      then bool_decide (c = " "%char) && negb after_space
           && single_spaced_from true s'
      else single_spaced_from false s'
  end.

Definition single_spaced (s : string) : bool := single_spaced_from false s.

(** What [remove_extra_whitespace] makes of a column *)
Definition collapsed (s : Series) : Series :=
  mkSeries (col_name s) object (map collapse_cell (col_values s)).

(** The names of the columns with their dtypes *)
Definition schema (d : DataFrame) : list (string * dtype) :=
  map (λ s, (col_name s, col_dtype s)) (columns d).

(** Whether the name of a column holds one of the keywords *)
Definition names_quantity (col : string) : bool :=
  existsb (λ keyword, Py.contains keyword (Py.lower col)) keywords.

(** No number below zero among some cells *)
Definition no_negative (l : list value) : Prop :=
  ∀ v, v ∈ l → lt_float v (Some 0%Qc) = false.

(** Whether [validate_ids] checks a column for duplicates *)
Definition is_primary_id (col : string) : bool :=
  Py.endswith col "_ID" || bool_decide (col = "Ticket_ID")
  || bool_decide (col = "Cleaner_ID").

(** The columns that [parse_dates] visits: the ones that are listed, or,
    without a list, the ones that have [date] in their name *)
Definition is_date_column (date_columns : option (list string))
    (col : string) : Prop :=
  match date_columns with
  | Some l => col ∈ l
  | None => Py.contains "date" (Py.lower col) = true
  end.

(** The lines that [log] prints for the entries of the report *)
Definition printed (self : DataCleaner) : list string :=
  map (λ message, "[" +:+ name self +:+ "] " +:+ message)
    (cleaning_report self).

(** The cleaner has the name [n] and has printed its report *)
Definition prints_report (n : string) (self : DataCleaner) : Prop :=
  name self = n ∧ stdout self = printed self.

(** The chain of the locations and of the staff, which differ in the
    columns that [validate_ids] checks *)
Definition clean_with_text (id_columns : list string) (self : DataCleaner)
    : outcome :=
  and_then (and_then (and_then (and_then (and_then (and_then
    (remove_duplicates all_columns self)
    (returning (handle_missing_values "auto")))
    standardize_text_columns)
    (returning clean_numeric_columns))
    (returning (validate_ids (Some id_columns))))
    (returning remove_extra_whitespace))
    (returning reset_index).

(** * Properties of the operations *)

(** ** Python strings on examples *)

Example lower_ex : Py.lower "Size_SQM" = "size_sqm".
Proof. reflexivity. Qed.

Example strip_ex : Py.strip "  in  progress 	" = "in  progress".
Proof. reflexivity. Qed.

Example title_ex : Py.title "in pROGRESS-x1y" = "In Progress-X1Y".
Proof. reflexivity. Qed.

Example collapse_ex : Py.collapse_whitespace " a   b	 c " = " a b c ".
Proof. reflexivity. Qed.

Example contains_ex :
  Py.contains "id" "location_id" = true ∧ Py.contains "id" "floor" = false.
Proof. split; reflexivity. Qed.

Example endswith_ex :
  Py.endswith "Location_ID" "_ID" = true ∧ Py.endswith "ID" "_ID" = false.
Proof. split; reflexivity. Qed.

(** ** Frames, masks and the log *)

Lemma select_length {A} (mask : list bool) (l : list A) :
  length (select mask l) ≤ length l.
Proof.
  revert l. induction mask as [|b mask IH]; intros [|x l]; simpl; try lia.
  specialize (IH l). destruct b; simpl; lia.
Qed.

Lemma len_getitem_mask d mask : len (getitem_mask d mask) ≤ len d.
Proof. apply select_length. Qed.

Lemma len_setitem d col dt cells : len (setitem d col dt cells) = len d.
Proof. reflexivity. Qed.

Lemma df_log message self : df (log message self) = df self.
Proof. reflexivity. Qed.

Lemma df_set_df d self : df (set_df d self) = d.
Proof. reflexivity. Qed.

Lemma cleaning_report_log message self :
  cleaning_report (log message self) = cleaning_report self ++ [message].
Proof. reflexivity. Qed.

Lemma cleaning_report_set_df d self :
  cleaning_report (set_df d self) = cleaning_report self.
Proof. reflexivity. Qed.

(** A property of the cleaner that every turn of a loop keeps holds after
    the loop. *)
Lemma foldl_keeps {A} (P : DataCleaner → Prop)
    (body : DataCleaner → A → DataCleaner) (l : list A) (self : DataCleaner) :
  (∀ s x, P s → P (body s x)) → P self → P (foldl body self l).
Proof.
  intros Hbody. revert self.
  induction l as [|x l IH]; intros self Hself; simpl; auto.
Qed.

Lemma for_each_keeps {A} (P : DataCleaner → Prop)
    (body : A → DataCleaner → outcome) (l : list A) (self : DataCleaner) :
  (∀ s x, P s → P (state (body x s))) → P self →
  P (state (for_each l body self)).
Proof.
  intros Hbody. revert self.
  induction l as [|x l IH]; intros self Hself; simpl; auto.
  specialize (Hbody self x Hself).
  destruct (body x self) as [s|e s]; simpl in *; auto.
Qed.

(** ** Row counts *)

Lemma remove_duplicates_len subset self :
  len (df (state (remove_duplicates subset self))) ≤ len (df self).
Proof.
  unfold remove_duplicates, drop_duplicates.
  destruct (empty (df self)).
  - simpl. rewrite Z.sub_diag. simpl. lia.
  - destruct (frame_duplicated subset (df self)) as [mask|e]; simpl; [|lia].
    case_bool_decide; simpl; apply len_getitem_mask.
Qed.

Lemma fill_column_len col self : len (df (fill_column col self)) = len (df self).
Proof.
  unfold fill_column. repeat case_bool_decide; try reflexivity.
  destruct (mode _); reflexivity.
Qed.

Lemma handle_missing_values_len strategy self :
  len (df (handle_missing_values strategy self)) ≤ len (df self).
Proof.
  unfold handle_missing_values.
  case_bool_decide; [reflexivity|].
  case_bool_decide.
  - apply (foldl_keeps (λ s, len (df s) ≤ len (df self))); [|reflexivity].
    intros s x Hs. rewrite fill_column_len. exact Hs.
  - case_bool_decide; [|reflexivity]. apply len_getitem_mask.
Qed.

Lemma standardize_text_column_len col self :
  len (df (state (standardize_text_column col self))) = len (df self).
Proof.
  unfold standardize_text_column. repeat case_bool_decide; reflexivity.
Qed.

Lemma standardize_text_columns_len self :
  len (df (state (standardize_text_columns self))) ≤ len (df self).
Proof.
  unfold standardize_text_columns.
  apply (for_each_keeps (λ s, len (df s) ≤ len (df self))); [|reflexivity].
  intros s x Hs. rewrite standardize_text_column_len. exact Hs.
Qed.

Lemma remove_negative_len col self :
  len (df (remove_negative col self)) ≤ len (df self).
Proof.
  unfold remove_negative. destruct (existsb _ _); [|reflexivity].
  case_bool_decide; [|reflexivity]. apply len_getitem_mask.
Qed.

Lemma df_flag_outliers col self : df (flag_outliers col self) = df self.
Proof. unfold flag_outliers. destruct (_ && _); reflexivity. Qed.

Lemma clean_numeric_columns_len self :
  len (df (clean_numeric_columns self)) ≤ len (df self).
Proof.
  unfold clean_numeric_columns.
  apply (foldl_keeps (λ s, len (df s) ≤ len (df self))); [|reflexivity].
  intros s x Hs. rewrite df_flag_outliers.
  etrans; [apply remove_negative_len|exact Hs].
Qed.

Lemma parse_date_column_len `{ToDatetime} col self :
  len (df (parse_date_column col self)) = len (df self).
Proof.
  unfold parse_date_column. destruct (has_column _ _); [|reflexivity].
  destruct (to_datetime _); [reflexivity|].
  case_bool_decide; reflexivity.
Qed.

Lemma parse_dates_len `{ToDatetime} date_columns self :
  len (df (parse_dates date_columns self)) ≤ len (df self).
Proof.
  unfold parse_dates.
  apply (foldl_keeps (λ s, len (df s) ≤ len (df self))); [|reflexivity].
  intros s x Hs. rewrite parse_date_column_len. exact Hs.
Qed.

Lemma df_validate_id_column col self : df (validate_id_column col self) = df self.
Proof.
  unfold validate_id_column. destruct (has_column _ _); [|reflexivity].
  destruct (_ || _); repeat case_bool_decide; reflexivity.
Qed.

Lemma df_validate_ids id_columns self : df (validate_ids id_columns self) = df self.
Proof.
  unfold validate_ids.
  apply (foldl_keeps (λ s, df s = df self)); [|reflexivity].
  intros s x Hs. rewrite df_validate_id_column. exact Hs.
Qed.

Lemma standardize_category_len entry self :
  len (df (standardize_category entry self)) = len (df self).
Proof.
  destruct entry as [col mapping]. simpl.
  destruct (has_column _ _); reflexivity.
Qed.

Lemma standardize_categories_len category_mapping self :
  len (df (standardize_categories category_mapping self)) ≤ len (df self).
Proof.
  unfold standardize_categories.
  destruct category_mapping as [[|entry entries]|]; try reflexivity.
  apply (foldl_keeps (λ s, len (df s) ≤ len (df self))); [|reflexivity].
  intros s x Hs. rewrite standardize_category_len. exact Hs.
Qed.

Lemma remove_extra_whitespace_len self :
  len (df (remove_extra_whitespace self)) ≤ len (df self).
Proof.
  unfold remove_extra_whitespace.
  apply (foldl_keeps (λ s, len (df s) ≤ len (df self))); [|reflexivity].
  intros s x Hs. exact Hs.
Qed.

Lemma reset_index_len self : len (df (reset_index self)) = len (df self).
Proof. unfold reset_index, len. simpl. apply length_seq. Qed.

(** C8. For every table and every operation of the cleaner
    ([remove_duplicates], [handle_missing_values] with any strategy,
    [standardize_text_columns], [clean_numeric_columns], [parse_dates],
    [validate_ids], [standardize_categories], [remove_extra_whitespace],
    [reset_index]), the table has at most as many rows after the call as
    before it, whether the call returns or raises: no operation inserts
    rows. *)
Theorem row_count_never_grows `{ToDatetime} (op : operation) (self : DataCleaner) :
  len (df (state (call op self))) ≤ len (df self).
Proof.
  destruct op; unfold call; cbn [state].
  - apply remove_duplicates_len.
  - apply handle_missing_values_len.
  - apply standardize_text_columns_len.
  - apply clean_numeric_columns_len.
  - apply parse_dates_len.
  - rewrite df_validate_ids. reflexivity.
  - apply standardize_categories_len.
  - apply remove_extra_whitespace_len.
  - rewrite reset_index_len. reflexivity.
Qed.

(** ** The log only grows *)

Lemma prefix_log message self :
  cleaning_report self `prefix_of` cleaning_report (log message self).
Proof. apply prefix_app_r. reflexivity. Qed.











Lemma validate_id_column_report col self :
  cleaning_report self `prefix_of` cleaning_report (validate_id_column col self).
Proof.
  unfold validate_id_column. destruct (has_column _ _); [|reflexivity].
  set (self' := if _ || _ then _ else self).
  assert (cleaning_report self `prefix_of` cleaning_report self') as Hself'.
  { subst self'. destruct (_ || _); [|reflexivity].
    case_bool_decide; [apply prefix_log|reflexivity]. }
  case_bool_decide; [|exact Hself'].
  etrans; [exact Hself'|apply prefix_log].
Qed.

Lemma validate_ids_report id_columns self :
  cleaning_report self `prefix_of`
    cleaning_report (validate_ids id_columns self).
Proof.
  unfold validate_ids.
  apply (foldl_keeps (λ s, cleaning_report self `prefix_of` cleaning_report s));
    [|reflexivity].
  intros s x Hs. etrans; [exact Hs|apply validate_id_column_report].
Qed.




(** ** [validate_ids] *)

(** C7. For every table and every [id_columns] argument, [validate_ids]
    leaves the table as it is (same rows, same values, same row count) and
    only appends to the log; on [Ticket_ID = ["T1", "T1", "T2"]] it logs one
    warning, for 1 duplicate, and the table still has its 3 rows. *)
Theorem validate_ids_only_logs :
  (∀ id_columns self,
     df (validate_ids id_columns self) = df self ∧
     cleaning_report self `prefix_of`
       cleaning_report (validate_ids id_columns self)) ∧
  validate_ids (Some ["Ticket_ID"]) (init ticket_table "Tickets") =
    log "WARNING: Found 1 duplicate IDs in 'Ticket_ID'"
      (init ticket_table "Tickets").
Proof.
  split; [|reflexivity].
  intros id_columns self. split.
  - apply df_validate_ids.
  - apply validate_ids_report.
Qed.

(** ** [standardize_text_columns] on small tables *)

(** C1. On a table without rows that has a text column,
    [standardize_text_columns] does not complete: the quotient of the
    number of distinct values by the number of rows raises
    [ZeroDivisionError] at the first text column. *)
Theorem standardize_text_columns_raises_without_rows (self : DataCleaner) :
  len (df self) = 0 →
  select_dtypes [object] (df self) ≠ [] →
  ∃ s, standardize_text_columns self = Raised ZeroDivisionError s.
Proof.
  intros Hlen Hcols. unfold standardize_text_columns.
  destruct (select_dtypes [object] (df self)) as [|col cols] eqn:Hnames;
    [done|].
  cbn [for_each]. unfold standardize_text_column at 1.
  rewrite df_set_df, len_setitem, bool_decide_eq_true_2 by done.
  cbn [and_then]. eauto.
Qed.

Lemma standardize_text_columns_raises_without_rows_witness :
  ∃ s, standardize_text_columns (init header_only "Tickets")
       = Raised ZeroDivisionError s.
Proof.
  apply standardize_text_columns_raises_without_rows.
  - reflexivity.
  - discriminate.
Defined.

(** C10, as the code has it.  On the three rows
    [Status = [" open ", "OPEN", "closed"]] the trimmed column has 3
    distinct values for 3 rows, a ratio of 1, which is not below 0.5:
    [standardize_text_columns] only trims, the column becomes
    [["open", "OPEN", "closed"]] and nothing is logged. *)
Theorem standardize_text_columns_status :
  standardize_text_columns (init status_table "Tickets") =
    Returned (init {| index := [0; 1; 2];
                      columns := [mkSeries "Status" object
                                    [Str "open"; Str "OPEN"; Str "closed"]] |}
                "Tickets").
Proof. reflexivity. Qed.

(** C10, as the claim states it, fails: the column is not
    [["Open", "Open", "Closed"]] after the call. *)
Lemma standardize_text_columns_status_not_titled :
  column (df (state (standardize_text_columns (init status_table "Tickets"))))
    "Status" ≠ [Str "Open"; Str "Open"; Str "Closed"].
Proof. discriminate. Qed.

(** ** [clean_numeric_columns] on small tables *)

(** The example of the specification: [Cost = [-5, 10, 20]] loses the row
    of -5 and the removal is logged. *)
Example clean_numeric_columns_cost :
  clean_numeric_columns (init cost_table "Financials") =
    log "Removed 1 rows with negative values in 'Cost'"
      (init {| index := [1; 2];
               columns := [mkSeries "Cost" int64 [int 10; int 20]] |}
         "Financials").
Proof. reflexivity. Qed.

(** C4, where the code departs from it.  On [Cost = [-5.0, nan, 10.0]] the
    filter [self.df[col] >= 0] drops the row of the missing value with the
    row of -5, as a comparison with [nan] is false, while the count that is
    logged, [(self.df[col] < 0).sum()], is 1: two rows are removed, one is
    reported. *)
Theorem clean_numeric_columns_drops_missing :
  clean_numeric_columns (init cost_with_missing "Financials") =
    log "Removed 1 rows with negative values in 'Cost'"
      (init {| index := [2];
               columns := [mkSeries "Cost" float64 [int 10]] |}
         "Financials").
Proof. reflexivity. Qed.

(** ** What [remove_duplicates] logs *)




(** ** Rows *)

Example rows_staff :
  rows staff_table =
    [[int 4; Str "Night"; NaN]; [NaN; NaN; NaN]; [int 8; Str "Night"; NaN]].
Proof. reflexivity. Qed.

(** ** Masks and duplicates *)

Lemma select_sublist {A} (mask : list bool) (l : list A) :
  select mask l `sublist_of` l.
Proof.
  revert l. induction mask as [|b mask IH]; intros [|x l]; simpl;
    try apply sublist_nil_l.
  destruct b; [apply sublist_skip|apply sublist_cons]; apply IH.
Qed.

Lemma select_length_eq {A B} (mask : list bool) (l : list A) (k : list B) :
  length l = length k → length (select mask l) = length (select mask k).
Proof.
  revert l k. induction mask as [|b mask IH]; intros [|x l] [|y k] Hlen;
    simpl in *; try done.
  destruct b; simpl; auto.
Qed.

Lemma select_replicate {A} (mask : list bool) (n : nat) (x : A) :
  select mask (replicate n x)
  = replicate (length (select mask (replicate n x))) x.
Proof.
  revert n. induction mask as [|b mask IH]; intros [|n]; simpl; try done.
  destruct b; simpl; [f_equal|]; apply IH.
Qed.

Lemma select_zip_with {A B C} (f : A → B → C) (mask : list bool)
    (l : list A) (k : list B) :
  select mask (zip_with f l k) = zip_with f (select mask l) (select mask k).
Proof.
  revert l k. induction mask as [|b mask IH]; intros [|x l] [|y k]; simpl;
    try done.
  - by destruct (select mask l), b.
  - destruct b; simpl; [f_equal|]; apply IH.
Qed.

Lemma select_lookup {A} (mask : list bool) (l : list A) x :
  x ∈ select mask l → ∃ i, mask !! i = Some true ∧ l !! i = Some x.
Proof.
  revert l. induction mask as [|b mask IH]; intros [|y l]; simpl;
    try (by intros ?%elem_of_nil).
  destruct b.
  - intros [->|Hx]%elem_of_cons; [by exists 0|].
    destruct (IH _ Hx) as (i & ? & ?). by exists (S i).
  - intros Hx. destruct (IH _ Hx) as (i & ? & ?). by exists (S i).
Qed.

Lemma elem_of_select {A} (mask : list bool) (l : list A) i x :
  mask !! i = Some true → l !! i = Some x → x ∈ select mask l.
Proof.
  revert l i. induction mask as [|b mask IH]; intros [|y l] [|i]; simpl;
    try done.
  - intros [= ->] [= ->]. left.
  - intros Hm Hl. destruct b; [right|]; by eapply IH.
Qed.

(** The rows of a frame filtered by a mask are the filtered rows. *)
Lemma rows_getitem_mask d mask :
  rows (getitem_mask d mask) = select mask (rows d).
Proof.
  unfold rows, getitem_mask, len. simpl.
  induction (columns d) as [|s cols IH]; simpl.
  - rewrite select_replicate. f_equal.
    apply select_length_eq. by rewrite length_replicate.
  - by rewrite select_zip_with, IH.
Qed.

Lemma rows_of_length n cols :
  Forall (λ s, length (col_values s) = n) cols → length (rows_of n cols) = n.
Proof.
  induction 1 as [|s cols Hs _ IH]; simpl.
  - apply length_replicate.
  - rewrite length_zip_with, IH, Hs. lia.
Qed.

Section duplicated.
Context {A : Type} `{EqDecision A}.
Implicit Types l seen : list A.


(** The flag of an item tells whether an equal item is in [seen] or
    before it in the list. *)
Lemma duplicated_from_lookup seen l i x :
  l !! i = Some x →
  ∃ b, duplicated_from seen l !! i = Some b ∧
       (b = true ↔ x ∈ seen ∨ ∃ j, j < i ∧ l !! j = Some x).
Proof.
  revert seen i. induction l as [|y l IH]; intros seen [|i] Hi; simpl in *;
    try done.
  - injection Hi as ->. case_decide as Hseen; eexists; (split; [done|]).
    + split; [by left|done].
    + split; [done|]. intros [?|(j & ? & _)]; [done|lia].
  - case_decide as Hseen; simpl.
    + destruct (IH seen i Hi) as (b & -> & Hb). exists b. split; [done|].
      rewrite Hb. split.
      * intros [?|(j & ? & ?)]; [by left|]. right. exists (S j). split; [lia|done].
      * intros [?|(j & ? & Hj)]; [by left|]. destruct j as [|j]; simpl in Hj.
        -- injection Hj as ->. by left.
        -- right. exists j. split; [lia|done].
    + destruct (IH (y :: seen) i Hi) as (b & -> & Hb). exists b. split; [done|].
      rewrite Hb. split.
      * intros [[->|?]%elem_of_cons|(j & ? & ?)].
        -- right. exists 0. split; [lia|done].
        -- by left.
        -- right. exists (S j). split; [lia|done].
      * intros [?|(j & ? & Hj)]; [left; by right|].
        destruct j as [|j]; simpl in Hj.
        -- injection Hj as ->. left. by left.
        -- right. exists j. split; [lia|done].
Qed.

Lemma unique_from_not_seen seen l x :
  x ∈ select (map negb (duplicated_from seen l)) l → x ∉ seen.
Proof.
  revert seen. induction l as [|y l IH]; intros seen; simpl.
  - by intros ?%elem_of_nil.
  - case_decide as Hseen; simpl.
    + apply IH.
    + intros [->|Hx]%elem_of_cons; [done|].
      apply IH in Hx. intros ?. apply Hx. by right.
Qed.

Lemma unique_from_NoDup seen l :
  NoDup (select (map negb (duplicated_from seen l)) l).
Proof.
  revert seen. induction l as [|y l IH]; intros seen; simpl.
  - constructor.
  - case_decide as Hseen; simpl; [apply IH|].
    constructor; [|apply IH].
    intros Hy%unique_from_not_seen. apply Hy. by left.
Qed.

Lemma unique_from_elem_of seen l x :
  x ∈ l → x ∈ seen ∨ x ∈ select (map negb (duplicated_from seen l)) l.
Proof.
  revert seen. induction l as [|y l IH]; intros seen; simpl.
  - by intros ?%elem_of_nil.
  - intros [->|Hx]%elem_of_cons.
    + case_decide; simpl; [by left|right; by left].
    + case_decide; simpl; [by apply IH|].
      destruct (IH (y :: seen) Hx) as [[->|?]%elem_of_cons|?].
      * right. by left.
      * by left.
      * right. by right.
Qed.

Lemma unique_NoDup l : NoDup (unique l).
Proof. apply unique_from_NoDup. Qed.

Lemma unique_sublist l : unique l `sublist_of` l.
Proof. apply select_sublist. Qed.

Lemma elem_of_unique l x : x ∈ unique l ↔ x ∈ l.
Proof.
  split.
  - intros Hx. eapply elem_of_sublist; [exact Hx|apply unique_sublist].
  - intros Hx. destruct (unique_from_elem_of [] l x Hx) as [?%elem_of_nil|?];
      done.
Qed.

Lemma duplicated_lookup l i x :
  l !! i = Some x →
  ∃ b, duplicated l !! i = Some b ∧
       (b = true ↔ ∃ j, j < i ∧ l !! j = Some x).
Proof.
  intros Hi. destruct (duplicated_from_lookup [] l i x Hi) as (b & Hb & Hiff).
  exists b. split; [done|]. rewrite Hiff. split; [|by right].
  by intros [?%elem_of_nil|?].
Qed.

End duplicated.

(** ** [remove_duplicates] *)

Lemma rows_of_0 cols : rows_of 0 cols = [].
Proof.
  induction cols as [|s cols IH]; simpl; [done|].
  rewrite IH. by destruct (col_values s).
Qed.

Lemma select_nil {A} (mask : list bool) : select mask (@nil A) = [].
Proof. by destruct mask. Qed.

Lemma empty_rectangular d :
  rectangular d → empty d = true → index d = [] ∧ rows d = [].
Proof.
  intros [_ Hcols] Hempty. unfold empty in Hempty.
  assert (index d = []) as Hindex.
  { apply orb_true_iff in Hempty as [Hc|Hi].
    - apply Hcols. by apply bool_decide_eq_true in Hc.
    - by apply bool_decide_eq_true in Hi. }
  split; [done|]. unfold rows, len. rewrite Hindex. apply rows_of_0.
Qed.

Lemma remove_duplicates_all_columns self :
  ∃ self',
    remove_duplicates all_columns self = Returned self' ∧
    df self' = if empty (df self) then df self
               else getitem_mask (df self)
                      (map negb (duplicated (rows (df self)))).
Proof.
  unfold remove_duplicates, drop_duplicates.
  destruct (empty (df self)); simpl; case_bool_decide; eauto.
Qed.

(** C3. For any table, [remove_duplicates()] without a subset returns a
    table in which no two rows are identical across all the columns; it
    keeps the first row of each group of identical rows, a row being kept
    exactly when no row before it is identical, so that every row of the
    table still occurs; and the retained rows, with their labels, are in
    the order they have in the table. *)
Theorem remove_duplicates_keeps_first (self : DataCleaner) :
  rectangular (df self) →
  ∃ self',
    remove_duplicates all_columns self = Returned self' ∧
    NoDup (rows (df self')) ∧
    (∀ r, r ∈ rows (df self) → r ∈ rows (df self')) ∧
    rows (df self') `sublist_of` rows (df self) ∧
    (let kept := map negb (duplicated (rows (df self))) in
     rows (df self') = select kept (rows (df self)) ∧
     index (df self') = select kept (index (df self)) ∧
     ∀ i r, rows (df self) !! i = Some r →
       (kept !! i = Some true ↔ ∀ j, j < i → rows (df self) !! j ≠ Some r)).
Proof.
  intros Hrect.
  destruct (remove_duplicates_all_columns self) as (self' & Hcall & Hdf).
  exists self'. split; [exact Hcall|].
  assert (rows (df self') = unique (rows (df self)) ∧
          index (df self')
          = select (map negb (duplicated (rows (df self)))) (index (df self)))
    as [Hrows Hindex].
  { destruct (empty (df self)) eqn:Hempty.
    - destruct (empty_rectangular _ Hrect Hempty) as [Hi Hr].
      rewrite Hdf, Hr, Hi. by rewrite select_nil.
    - rewrite Hdf, rows_getitem_mask. done. }
  rewrite Hrows. split; [apply unique_NoDup|].
  split; [intros r; apply elem_of_unique|].
  split; [apply unique_sublist|].
  split; [done|]. split; [exact Hindex|].
  intros i r Hi.
  destruct (duplicated_lookup _ _ _ Hi) as (b & Hb & Hiff).
  rewrite list_lookup_fmap, Hb. simpl. split.
  - intros [= Hneg] j Hj Hrj. apply negb_true_iff in Hneg.
    assert (b = true) as ->; [apply Hiff; eauto|done].
  - intros Hfirst. f_equal. apply negb_true_iff.
    destruct b; [|done]. destruct Hiff as [Hex _].
    destruct (Hex eq_refl) as (j & Hj & Hrj). by destruct (Hfirst j Hj).
Qed.

Lemma remove_duplicates_keeps_first_witness :
  ∃ self',
    remove_duplicates all_columns (init ticket_table "Tickets") = Returned self' ∧
    NoDup (rows (df self')) ∧
    (∀ r, r ∈ rows ticket_table → r ∈ rows (df self')) ∧
    rows (df self') `sublist_of` rows ticket_table ∧
    (let kept := map negb (duplicated (rows ticket_table)) in
     rows (df self') = select kept (rows ticket_table) ∧
     index (df self') = select kept (index ticket_table) ∧
     ∀ i r, rows ticket_table !! i = Some r →
       (kept !! i = Some true ↔ ∀ j, j < i → rows ticket_table !! j ≠ Some r)).
Proof.
  apply (remove_duplicates_keeps_first (init ticket_table "Tickets")).
  split; [repeat constructor|discriminate].
Defined.


(** ** Reading and writing a column *)

Lemma has_column_true d col : has_column d col = true ↔ col ∈ column_names d.
Proof. apply bool_decide_eq_true. Qed.

Lemma column_names_setitem d col dt cells :
  column_names (setitem d col dt cells) = column_names d.
Proof.
  unfold column_names, setitem. simpl. rewrite map_map.
  apply map_ext. intros s. by case_bool_decide.
Qed.

Lemma getitem_setitem d col dt cells :
  col ∈ column_names d →
  getitem (setitem d col dt cells) col = Some (mkSeries col dt cells).
Proof.
  unfold getitem, setitem, column_names. simpl.
  induction (columns d) as [|s cols IH]; simpl.
  - by intros ?%elem_of_nil.
  - intros Hcol. destruct (decide (col_name s = col)) as [Heq|Hne].
    + rewrite (bool_decide_eq_true_2 _ Heq). simpl.
      by rewrite bool_decide_eq_true_2.
    + rewrite (bool_decide_eq_false_2 _ Hne).
      rewrite (bool_decide_eq_false_2 _ Hne).
      apply IH. apply elem_of_cons in Hcol as [?|?]; [congruence|done].
Qed.

Lemma getitem_setitem_ne d col col' dt cells :
  col' ≠ col → getitem (setitem d col dt cells) col' = getitem d col'.
Proof.
  intros Hne. unfold getitem, setitem. simpl.
  induction (columns d) as [|s cols IH]; simpl; [done|].
  destruct (decide (col_name s = col)) as [Heq|Hs].
  - rewrite (bool_decide_eq_true_2 _ Heq). simpl.
    rewrite (bool_decide_eq_false_2 (col = col')) by congruence.
    rewrite (bool_decide_eq_false_2 (col_name s = col')) by congruence.
    exact IH.
  - rewrite (bool_decide_eq_false_2 _ Hs). by rewrite IH.
Qed.

Lemma column_setitem d col dt cells :
  col ∈ column_names d → column (setitem d col dt cells) col = cells.
Proof. intros Hcol. unfold column. by rewrite getitem_setitem. Qed.

Lemma column_setitem_ne d col col' dt cells :
  col' ≠ col → column (setitem d col dt cells) col' = column d col'.
Proof. intros Hne. unfold column. by rewrite getitem_setitem_ne. Qed.

Lemma setitem_not_column d col dt cells :
  col ∉ column_names d → setitem d col dt cells = d.
Proof.
  unfold setitem, column_names. destruct d as [idx cols]. simpl.
  intros Hcol. f_equal. induction cols as [|s cols IH]; simpl; [done|].
  simpl in Hcol. apply not_elem_of_cons in Hcol as [Hne Hcol].
  rewrite bool_decide_eq_false_2 by congruence. by rewrite IH.
Qed.

(** ** [parse_dates] *)

Lemma count_null_cons v l :
  count_null (v :: l) = (if isnull v then 1 else 0) + count_null l.
Proof.
  unfold count_null, count_true. simpl. rewrite filter_cons.
  destruct (isnull v); by case_decide.
Qed.

Lemma failed_to_parse_cons c cells p parsed :
  failed_to_parse (c :: cells) (p :: parsed)
  = (if notnull c && isnull p then 1 else 0) + failed_to_parse cells parsed.
Proof.
  unfold failed_to_parse, count_true. simpl. rewrite filter_cons.
  destruct (notnull c && isnull p); by case_decide.
Qed.

(** After the conversion, the missing cells of a column are the values that
    failed to parse and the cells that were missing before. *)
Lemma to_datetime_count_null `{ToDatetime} cells parsed :
  to_datetime cells = inr parsed →
  count_null parsed = failed_to_parse cells parsed + count_null cells.
Proof.
  intros Hparsed.
  assert (Forall2 (λ c p, isnull c = true → isnull p = true) cells parsed)
    as Hcells.
  { apply Forall2_same_length_lookup_2.
    - symmetry. by eapply to_datetime_length.
    - intros i c p Hc Hp Hnull. destruct c; try done.
      rewrite (to_datetime_missing _ _ _ Hparsed Hc) in Hp.
      by injection Hp as <-. }
  clear Hparsed. induction Hcells as [|c p cells parsed Hcp _ IH]; [done|].
  rewrite !count_null_cons, failed_to_parse_cons, IH. unfold notnull.
  destruct (isnull c); [rewrite Hcp by done|destruct (isnull p)]; simpl; lia.
Qed.

(** C5, as the code has it.  When the loop of [parse_dates] reaches a
    listed column of the table, the conversion of the column either fails
    as a whole, and then the failure is logged and the table is as before,
    or it gives the parsed cells: the column holds them, the other columns
    and the row labels are as before, and one entry is logged.  The count
    of invalid dates in that entry is the number of missing cells of the
    parsed column, which is the number of values that failed to parse plus
    the number of cells that were missing before.  A listed name that is
    no column is skipped.  No exception leaves [parse_dates]. *)
Theorem parse_dates_counts_missing_cells `{ToDatetime}
    (cols : list string) (col : string) (self : DataCleaner) :
  let before := parse_dates (Some cols) self in
  let after := parse_dates (Some (cols ++ [col])) self in
  let cells := column (df before) col in
  if has_column (df before) col then
    match to_datetime cells with
    | inr parsed =>
        df after = setitem (df before) col datetime64 parsed ∧
        column (df after) col = parsed ∧
        (∀ other, other ≠ col →
           getitem (df after) other = getitem (df before) other) ∧
        count_null parsed = failed_to_parse cells parsed + count_null cells ∧
        cleaning_report after =
          cleaning_report before ++
            [if bool_decide (0 < count_null parsed) then
               "Found " +:+ pretty (count_null parsed) +:+
               " invalid dates in '" +:+ col +:+ "'"
             else "Parsed '" +:+ col +:+ "' as datetime"]
    | inl e =>
        after = log ("Could not parse '" +:+ col +:+ "' as date: " +:+ e) before
    end
  else after = before.
Proof.
  intros before after cells.
  assert (after = parse_date_column col before) as ->.
  { unfold after, before, parse_dates. by rewrite foldl_app. }
  unfold parse_date_column. fold cells.
  destruct (has_column (df before) col) eqn:Hcol; [|done].
  apply has_column_true in Hcol.
  destruct (to_datetime cells) as [e|parsed] eqn:Hparsed; [done|].
  rewrite df_set_df, column_setitem by done.
  split; [by case_bool_decide|].
  split; [case_bool_decide; simpl; by apply column_setitem|].
  split.
  { intros other Hne. case_bool_decide; simpl; by apply getitem_setitem_ne. }
  split; [by apply to_datetime_count_null|].
  by case_bool_decide.
Qed.

(** The example of the specification, with the dates read as ISO dates:
    the string that is no date becomes the missing marker and is counted. *)
Example parse_dates_example :
  @parse_dates iso_dates (Some ["Date"]) (init dates_table "Financials") =
    log "Found 1 invalid dates in 'Date'"
      (init {| index := [0; 1];
               columns := [mkSeries "Date" datetime64
                             [Timestamp 1704412800000000000; NaN]] |}
         "Financials").
Proof. reflexivity. Qed.

(** A conversion that fails for the whole column leaves the table as it
    is and the failure in the log. *)
Example parse_dates_failure :
  @parse_dates (failing "Unknown datetime string format")
    (Some ["Date"]) (init dates_table "Financials") =
    log "Could not parse 'Date' as date: Unknown datetime string format"
      (init dates_table "Financials").
Proof. reflexivity. Qed.

(** C5, as the claim states it, fails: on [Date = ["2024-01-05", None]]
    every present value parses, no value fails to parse, and yet one
    invalid date is logged, the cell that was missing before the call. *)
Lemma parse_dates_counts_cell_missing_before :
  let after :=
    @parse_dates iso_dates (Some ["Date"]) (init dates_with_missing "Financials") in
  cleaning_report after = ["Found 1 invalid dates in 'Date'"] ∧
  failed_to_parse (column dates_with_missing "Date") (column (df after) "Date")
  = 0.
Proof. split; reflexivity. Qed.


(** ** Loops that rewrite one column per turn *)

Lemma getitem_unique d s :
  unique_names d → s ∈ columns d → getitem d (col_name s) = Some s.
Proof.
  unfold unique_names, column_names, getitem.
  induction (columns d) as [|s' cols IH]; simpl.
  - by intros _ ?%elem_of_nil.
  - intros [Hs' Hcols]%NoDup_cons [->|Hs]%elem_of_cons.
    + by rewrite bool_decide_eq_true_2.
    + rewrite bool_decide_eq_false_2; [by apply IH|].
      intros Heq. apply Hs'. rewrite Heq. apply list_elem_of_fmap. eauto.
Qed.

Lemma column_unique d s :
  unique_names d → s ∈ columns d → column d (col_name s) = col_values s.
Proof. intros Hd Hs. unfold column. by rewrite getitem_unique. Qed.

Lemma dtype_of_unique d s :
  unique_names d → s ∈ columns d → dtype_of d (col_name s) = col_dtype s.
Proof. intros Hd Hs. unfold dtype_of. by rewrite getitem_unique. Qed.

Lemma map_columns_ext f g d :
  (∀ s, s ∈ columns d → f s = g s) → map_columns f d = map_columns g d.
Proof.
  intros Hfg. unfold map_columns. f_equal.
  apply Forall_fmap_ext_1, Forall_forall, Hfg.
Qed.

Lemma map_columns_compose f g d :
  map_columns f (map_columns g d) = map_columns (f ∘ g) d.
Proof. unfold map_columns. simpl. by rewrite map_map. Qed.

Lemma column_names_map_columns f d :
  (∀ s, col_name (f s) = col_name s) →
  column_names (map_columns f d) = column_names d.
Proof.
  intros Hf. unfold column_names, map_columns. simpl. rewrite map_map.
  by apply map_ext.
Qed.

(** [df[col] = cells] rewrites the column of that name. *)
Lemma setitem_map_columns d col dt cells :
  setitem d col dt cells
  = map_columns (λ s, if bool_decide (col_name s = col)
                      then mkSeries col dt cells else s) d.
Proof. reflexivity. Qed.

(** When the names are unique, [df[col] = g(df[col])] rewrites the column
    [col] by [g] and leaves the others. *)
Lemma setitem_column d col (g : Series → Series) :
  unique_names d →
  (∀ s, col_name (g s) = col_name s) →
  setitem d col (col_dtype (g (mkSeries col (dtype_of d col) (column d col))))
    (col_values (g (mkSeries col (dtype_of d col) (column d col))))
  = map_columns (λ s, if bool_decide (col_name s = col) then g s else s) d.
Proof.
  intros Hd Hg. rewrite setitem_map_columns. apply map_columns_ext.
  intros s Hs. case_bool_decide as Hcol; [|done]. subst col.
  rewrite dtype_of_unique, column_unique by done.
  specialize (Hg s). destruct s as [n dt cells]; simpl in *.
  destruct (g _) as [n' dt' cells']; simpl in *. by subst.
Qed.

Section column_loop.
Context (g : Series → Series) (step : DataCleaner → string → DataCleaner).
Context (n : nat).
Hypothesis g_name : ∀ s, col_name (g s) = col_name s.
Hypothesis step_df : ∀ self col,
  unique_names (df self) → len (df self) = n →
  df (step self col)
  = map_columns (λ s, if bool_decide (col_name s = col) then g s else s)
      (df self).

(** A loop over distinct column names whose turn rewrites the named
    column by [g] rewrites exactly the named columns, each one once. *)
Lemma foldl_columns names self :
  unique_names (df self) → len (df self) = n → NoDup names →
  df (foldl step self names)
  = map_columns (λ s, if bool_decide (col_name s ∈ names) then g s else s)
      (df self).
Proof.
  revert self. induction names as [|col names IH]; intros self Hd Hn Hnames.
  - cbn [foldl]. destruct (df self) as [idx cols]. unfold map_columns.
    cbn [index columns]. f_equal. rewrite <- (map_id cols) at 1.
    apply map_ext. intros s.
    case_bool_decide as Hs; [by apply elem_of_nil in Hs|done].
  - apply NoDup_cons in Hnames as [Hcol Hnames]. simpl.
    pose proof (step_df self col Hd Hn) as Hstep.
    assert (unique_names (df (step self col))) as Hd'.
    { rewrite Hstep. unfold unique_names.
      rewrite column_names_map_columns; [done|].
      intros s. by case_bool_decide. }
    assert (len (df (step self col)) = n) as Hn' by (by rewrite Hstep).
    rewrite (IH _ Hd' Hn' Hnames), Hstep, map_columns_compose.
    apply map_columns_ext. intros s _. unfold compose.
    destruct (decide (col_name s = col)) as [Heq|Hne].
    + rewrite (bool_decide_eq_true_2 (col_name s = col) Heq).
      rewrite (bool_decide_eq_true_2 (col_name s ∈ col :: names))
        by (rewrite Heq; left).
      rewrite bool_decide_eq_false_2; [done|]. by rewrite g_name, Heq.
    + rewrite (bool_decide_eq_false_2 (col_name s = col) Hne).
      destruct (decide (col_name s ∈ names)) as [Hin|Hnin].
      * rewrite (bool_decide_eq_true_2 _ Hin).
        rewrite bool_decide_eq_true_2; [done|]. by right.
      * rewrite (bool_decide_eq_false_2 _ Hnin).
        rewrite bool_decide_eq_false_2; [done|].
        by intros [?|?]%elem_of_cons.
Qed.

End column_loop.

(** ** Missing cells, medians and modes *)

Lemma count_true_cons b mask :
  count_true (b :: mask) = (if b then 1 else 0) + count_true mask.
Proof.
  unfold count_true. rewrite filter_cons. destruct b; by case_decide.
Qed.

Lemma count_null_0 l :
  count_null l = 0 ↔ ∀ v, v ∈ l → isnull v = false.
Proof.
  induction l as [|x l IH]; [by split; [intros _ ? ?%elem_of_nil|]|].
  rewrite count_null_cons. split.
  - intros Hcount v [->|Hv]%elem_of_cons.
    + destruct (isnull x); [lia|done].
    + apply IH; [|done]. destruct (isnull x); lia.
  - intros Hall. rewrite (Hall x) by left. simpl. apply IH.
    intros v Hv. apply Hall. by right.
Qed.


Lemma fillna_NaN l : fillna NaN l = l.
Proof.
  unfold fillna. rewrite <- (map_id l) at 2. apply map_ext. by intros [].
Qed.

Lemma count_null_fillna v l : isnull v = false → count_null (fillna v l) = 0.
Proof.
  intros Hv. apply count_null_0. intros x [y [-> _]]%list_elem_of_fmap.
  by destruct (isnull y) eqn:Hy.
Qed.







(** ** [handle_missing_values] with strategy ['auto'] *)

Lemma filled_name s : col_name (filled s) = col_name s.
Proof.
  unfold filled. repeat case_bool_decide; try done. by destruct (mode _).
Qed.

Lemma filled_dtype s : col_dtype (filled s) = col_dtype s.
Proof.
  unfold filled. repeat case_bool_decide; try done. by destruct (mode _).
Qed.


Lemma map_columns_id d : map_columns (λ s, s) d = d.
Proof. destruct d. unfold map_columns. simpl. by rewrite map_id. Qed.

Lemma setitem_same d col :
  unique_names d → setitem d col (dtype_of d col) (column d col) = d.
Proof.
  intros Hd.
  pose proof (setitem_column d col (λ s, s) Hd (λ _, eq_refl)) as Hset.
  simpl in Hset. rewrite Hset.
  rewrite <- (map_columns_id d) at 2. apply map_columns_ext.
  intros s _. by case_bool_decide.
Qed.

Lemma fill_column_df col self :
  unique_names (df self) →
  df (fill_column col self)
  = map_columns (λ s, if bool_decide (col_name s = col) then filled s else s)
      (df self).
Proof.
  intros Hd. rewrite <- (setitem_column _ _ filled Hd filled_name).
  unfold fill_column, filled. simpl.
  case_bool_decide; [|by rewrite setitem_same].
  case_bool_decide; [done|].
  destruct (mode _); [by rewrite setitem_same|done].
Qed.

Lemma missing_count_0 d s :
  missing_count d = 0 → s ∈ columns d → count_null (col_values s) = 0.
Proof.
  unfold missing_count. induction (columns d) as [|s' cols IH]; simpl.
  - by intros _ ?%elem_of_nil.
  - intros Hsum [->|Hs]%elem_of_cons; [lia|]. apply IH; [lia|done].
Qed.

Lemma handle_missing_values_auto_df self :
  unique_names (df self) →
  df (handle_missing_values "auto" self) = map_columns filled (df self).
Proof.
  intros Hd. unfold handle_missing_values.
  case_bool_decide as Hcount.
  - rewrite df_log. rewrite <- (map_columns_id (df self)) at 1.
    apply map_columns_ext. intros s Hs. unfold filled.
    by rewrite (missing_count_0 _ _ Hcount Hs).
  - rewrite bool_decide_eq_true_2 by done.
    rewrite (foldl_columns filled (λ self col, fill_column col self)
               (len (df self))); try done.
    + apply map_columns_ext. intros s Hs.
      rewrite bool_decide_eq_true_2; [done|].
      by apply (list_elem_of_fmap_2 col_name).
    + apply filled_name.
    + intros s col Hs _. by apply fill_column_df.
Qed.



(** The median of the hours, 6, and the mode of the shifts fill the
    missing cells; the notes, all missing, are left. *)
Example handle_missing_values_staff :
  let after := handle_missing_values "auto" (init staff_table "Staff") in
  df after =
    {| index := [0; 1; 2];
       columns := [mkSeries "Hours_worked" float64 [int 4; int 6; int 8];
                   mkSeries "Shift" object
                     [Str "Night"; Str "Night"; Str "Night"];
                   mkSeries "Notes" object [NaN; NaN; NaN]] |} ∧
  cleaning_report after =
    ["Found 5 missing values";
     "  - Filled Hours_worked (numeric) with median";
     "  - Filled Shift (categorical) with mode"].
Proof.
  split; [|reflexivity].
  apply (bool_decide_unpack _). vm_compute. exact I.
Qed.




(** ** Trimming and title-casing a string *)

Module PyFacts.
Import Py.

Local Ltac each_character c :=
  destruct c as [[] [] [] [] [] [] [] []]; reflexivity.

Lemma isspace_to_lower c : isspace (to_lower c) = isspace c.
Proof. each_character c. Qed.

Lemma isspace_to_upper c : isspace (to_upper c) = isspace c.
Proof. each_character c. Qed.





Lemma lstrip_idemp s : lstrip (lstrip s) = lstrip s.
Proof.
  induction s as [|c s IH]; simpl; [done|].
  destruct (isspace c) eqn:Hc; [done|]. simpl. by rewrite Hc.
Qed.

Lemma rstrip_idemp s : rstrip (rstrip s) = rstrip s.
Proof.
  induction s as [|c s IH]; simpl; [done|].
  destruct (rstrip s) as [|a r] eqn:Hr.
  - destruct (isspace c) eqn:Hc; simpl; [done|]. by rewrite Hc.
  - change (rstrip (String c (String a r))) with
      (match rstrip (String a r) with
       | EmptyString =>
           if isspace c then EmptyString else String c EmptyString
       | r' => String c r'
       end).
    by rewrite IH.
Qed.

Lemma rstrip_lstrip s : rstrip (lstrip s) = lstrip (rstrip s).
Proof.
  induction s as [|c s IH]; simpl; [done|].
  destruct (isspace c) eqn:Hc.
  - rewrite IH. destruct (rstrip s) as [|a r]; simpl; [done|]. by rewrite Hc.
  - simpl. destruct (rstrip s) as [|a r]; simpl; by rewrite Hc.
Qed.

Lemma strip_idemp s : strip (strip s) = strip s.
Proof.
  unfold strip. by rewrite rstrip_lstrip, rstrip_idemp, lstrip_idemp.
Qed.

Lemma lstrip_strip s : lstrip (strip s) = strip s.
Proof. apply lstrip_idemp. Qed.

Lemma rstrip_strip s : rstrip (strip s) = strip s.
Proof. unfold strip. by rewrite rstrip_lstrip, rstrip_idemp. Qed.

Lemma lstrip_length s : String.length (lstrip s) ≤ String.length s.
Proof.
  induction s as [|c s IH]; simpl; [done|].
  destruct (isspace c); simpl; lia.
Qed.

Lemma title_from_empty b s : title_from b s = EmptyString → s = EmptyString.
Proof. by destruct s. Qed.

(** Title-casing keeps a string trimmed on the left... *)
Lemma lstrip_title_from b s :
  lstrip s = s → lstrip (title_from b s) = title_from b s.
Proof.
  destruct s as [|c s]; simpl; [done|].
  destruct (isspace c) eqn:Hc.
  - intros Hs. pose proof (lstrip_length s) as Hlen.
    rewrite Hs in Hlen. simpl in Hlen. lia.
  - intros _. destruct b; by rewrite ?isspace_to_lower, ?isspace_to_upper, Hc.
Qed.

(** ... and on the right. *)
Lemma rstrip_title_from b s :
  rstrip s = s → rstrip (title_from b s) = title_from b s.
Proof.
  revert b. induction s as [|c s IH]; intros b; simpl; [done|].
  set (c' := if b then to_lower c else to_upper c).
  assert (isspace c' = isspace c) as Hc'
    by (unfold c'; destruct b; [apply isspace_to_lower|apply isspace_to_upper]).
  destruct (rstrip s) as [|a r] eqn:Hr.
  - destruct (isspace c) eqn:Hc; [done|]. intros [= <-]. simpl.
    by rewrite Hc'.
  - intros [= Hs]. rewrite (IH (iscased c)) by done.
    destruct (title_from (iscased c) s) eqn:Ht; [|done].
    apply title_from_empty in Ht. by subst s.
Qed.

Lemma strip_title_strip s : strip (title (strip s)) = title (strip s).
Proof.
  unfold title, strip at 1.
  rewrite rstrip_title_from by apply rstrip_strip.
  apply lstrip_title_from, lstrip_strip.
Qed.



End PyFacts.

(** ** [standardize_text_columns] applied twice *)








Lemma setitem_setitem d col dt cells dt' cells' :
  setitem (setitem d col dt cells) col dt' cells' = setitem d col dt' cells'.
Proof.
  unfold setitem. simpl. f_equal. rewrite map_map. apply map_ext.
  intros s. destruct (decide (col_name s = col)) as [Hs|Hs].
  - rewrite (bool_decide_eq_true_2 _ Hs). simpl.
    by rewrite bool_decide_eq_true_2.
  - rewrite (bool_decide_eq_false_2 _ Hs).
    by rewrite (bool_decide_eq_false_2 _ Hs).
Qed.

Lemma elem_of_column_names d col :
  col ∈ column_names d → ∃ s, s ∈ columns d ∧ col_name s = col.
Proof. intros (s & -> & Hs)%list_elem_of_fmap. eauto. Qed.

Lemma standardize_text_column_df n col self :
  unique_names (df self) → len (df self) = n → n ≠ 0 →
  standardize_text_column col self
    = Returned (state (standardize_text_column col self)) ∧
  df (state (standardize_text_column col self))
  = map_columns (λ s, if bool_decide (col_name s = col)
                      then standardized n s else s) (df self).
Proof.
  intros Hd Hn Hn0.
  rewrite <- (setitem_column _ _ (standardized n) Hd (λ _, eq_refl)).
  unfold standardize_text_column, standardized.
  cbn [col_name col_dtype col_values].
  rewrite !df_set_df, len_setitem, Hn, bool_decide_eq_false_2 by done.
  destruct (decide (col ∈ column_names (df self))) as [Hcol|Hcol].
  - rewrite column_setitem by done.
    case_bool_decide; (split; [done|]); cbn [state];
      rewrite ?df_log, ?df_set_df; [|done].
    apply setitem_setitem.
  - rewrite !(setitem_not_column (df self)) by done.
    assert (column (df self) col = []) as ->.
    { unfold column, getitem. destruct (find _ _) as [s|] eqn:Hfind; [|done].
      apply find_some in Hfind as [Hs Hname].
      apply bool_decide_eq_true in Hname. destruct Hcol. subst col.
      apply (list_elem_of_fmap_2 col_name), list_elem_of_In, Hs. }
    cbn [map]. case_bool_decide; (split; [done|]); cbn [state];
      by rewrite ?df_log, ?df_set_df.
Qed.

Lemma for_each_foldl {A} (Inv : DataCleaner → Prop)
    (body : A → DataCleaner → outcome) (l : list A) (self : DataCleaner) :
  (∀ s x, Inv s → body x s = Returned (state (body x s)) ∧
                  Inv (state (body x s))) →
  Inv self →
  for_each l body self = Returned (foldl (λ s x, state (body x s)) self l).
Proof.
  intros Hbody. revert self.
  induction l as [|x l IH]; intros self Hself; simpl; [done|].
  destruct (Hbody self x Hself) as [-> Hinv]. simpl. by apply IH.
Qed.

Lemma select_dtypes_NoDup include d :
  unique_names d → NoDup (select_dtypes include d).
Proof.
  intros Hd. unfold select_dtypes.
  eapply sublist_NoDup; [exact Hd|].
  apply (fmap_sublist col_name), sublist_filter.
Qed.

Lemma elem_of_select_dtypes include d s :
  unique_names d → s ∈ columns d →
  col_name s ∈ select_dtypes include d ↔ col_dtype s ∈ include.
Proof.
  intros Hd Hs. unfold select_dtypes. split.
  - intros (s' & Hname & [Hdt Hs']%list_elem_of_filter)%list_elem_of_fmap.
    assert (s' = s) as <-; [|done].
    pose proof (getitem_unique d s' Hd Hs') as Hget.
    rewrite <- Hname, (getitem_unique d s Hd Hs) in Hget. congruence.
  - intros Hdt. apply (list_elem_of_fmap_2 col_name).
    by apply list_elem_of_filter.
Qed.

(** On a table with rows, [standardize_text_columns] returns, with every
    column of text standardized. *)
Lemma standardize_text_columns_df self :
  unique_names (df self) → len (df self) ≠ 0 →
  ∃ self',
    standardize_text_columns self = Returned self' ∧
    df self' = map_columns
                 (λ s, if bool_decide (col_dtype s = object)
                       then standardized (len (df self)) s else s) (df self).
Proof.
  intros Hd Hn. eexists. split.
  - unfold standardize_text_columns.
    apply (for_each_foldl
             (λ s, unique_names (df s) ∧ len (df s) = len (df self)));
      [|done].
    intros s col [Hs Hlen].
    destruct (standardize_text_column_df _ col s Hs Hlen Hn) as [Hret Hdf].
    split; [done|]. rewrite Hdf. split; [|done].
    unfold unique_names. rewrite column_names_map_columns; [done|].
    intros s'. by case_bool_decide.
  - rewrite (foldl_columns (standardized (len (df self)))
               (λ s col, state (standardize_text_column col s))
               (len (df self))); try done.
    + apply map_columns_ext. intros s Hs.
      rewrite (bool_decide_ext
                 (col_name s ∈ select_dtypes [object] (df self))
                 (col_dtype s = object)); [done|].
      rewrite elem_of_select_dtypes by done. apply list_elem_of_singleton.
    + intros s col Hs Hlen.
      by destruct (standardize_text_column_df _ col s Hs Hlen Hn).
    + by apply select_dtypes_NoDup.
Qed.


(** Without rows, the first column of text stops the call. *)
Lemma standardize_text_columns_without_rows self :
  len (df self) = 0 →
  select_dtypes [object] (df self) ≠ [] →
  ∃ s, standardize_text_columns self = Raised ZeroDivisionError s.
Proof.
  intros Hlen Hcols. unfold standardize_text_columns.
  destruct (select_dtypes [object] (df self)) as [|col cols]; [done|].
  simpl. unfold standardize_text_column.
  rewrite df_set_df, len_setitem, Hlen. simpl. eauto.
Qed.




(** Two distinct values in five rows: the column is title-cased. *)
Example standardize_text_columns_shift :
  standardize_text_columns (init shift_table "Staff") =
    Returned
      (log "Standardized text in 'Shift' column"
         (init {| index := [0; 1; 2; 3; 4];
                  columns := [mkSeries "Shift" object
                                [Str "Night"; Str "Night"; Str "Night";
                                 Str "Night"; Str "Night"]] |}
            "Staff")).
Proof. reflexivity. Qed.


(** * Further properties of the cleaner *)

(** ** The names of the columns never change *)

Lemma column_names_getitem_mask d mask :
  column_names (getitem_mask d mask) = column_names d.
Proof. unfold column_names, getitem_mask. simpl. by rewrite map_map. Qed.

Lemma fill_column_names col self :
  column_names (df (fill_column col self)) = column_names (df self).
Proof.
  unfold fill_column. repeat case_bool_decide; try done.
  - apply column_names_setitem.
  - destruct (mode _); [done|]. apply column_names_setitem.
Qed.

Lemma standardize_text_column_names col self :
  column_names (df (state (standardize_text_column col self)))
  = column_names (df self).
Proof.
  unfold standardize_text_column. repeat case_bool_decide; cbn [state];
    rewrite ?df_log, ?df_set_df, ?column_names_setitem; done.
Qed.

Lemma remove_negative_names col self :
  column_names (df (remove_negative col self)) = column_names (df self).
Proof.
  unfold remove_negative. destruct (existsb _ _); [|done].
  case_bool_decide; [|done]. apply column_names_getitem_mask.
Qed.

Lemma parse_date_column_names `{ToDatetime} col self :
  column_names (df (parse_date_column col self)) = column_names (df self).
Proof.
  unfold parse_date_column. destruct (has_column _ _); [|done].
  destruct (to_datetime _); [done|].
  case_bool_decide; apply column_names_setitem.
Qed.

Lemma standardize_category_names entry self :
  column_names (df (standardize_category entry self)) = column_names (df self).
Proof.
  destruct entry as [col mapping]. simpl.
  destruct (has_column _ _); [|done]. apply column_names_setitem.
Qed.

(** X1. Whatever the operation and its arguments, and whether it returns
    or raises, the table has the same columns afterwards, by name and in
    the same order: the operations rewrite cells and drop rows, they never
    add, drop, rename or reorder a column. *)
Theorem column_names_never_change `{ToDatetime}
    (op : operation) (self : DataCleaner) :
  column_names (df (state (call op self))) = column_names (df self).
Proof.
  destruct op; unfold call; cbn [state].
  - unfold remove_duplicates, drop_duplicates.
    destruct (empty (df self)); [by case_bool_decide|].
    destruct (frame_duplicated _ _); [|done].
    case_bool_decide; apply column_names_getitem_mask.
  - unfold handle_missing_values. case_bool_decide; [done|].
    case_bool_decide.
    + apply (foldl_keeps (λ s, column_names (df s) = column_names (df self)));
        [|done].
      intros s col Hs. by rewrite fill_column_names.
    + case_bool_decide; [|done]. apply column_names_getitem_mask.
  - unfold standardize_text_columns.
    apply (for_each_keeps
             (λ s, column_names (df s) = column_names (df self))); [|done].
    intros s col Hs. by rewrite standardize_text_column_names.
  - unfold clean_numeric_columns.
    apply (foldl_keeps (λ s, column_names (df s) = column_names (df self)));
      [|done].
    intros s col Hs. by rewrite df_flag_outliers, remove_negative_names.
  - unfold parse_dates.
    apply (foldl_keeps (λ s, column_names (df s) = column_names (df self)));
      [|done].
    intros s col Hs. by rewrite parse_date_column_names.
  - by rewrite df_validate_ids.
  - unfold standardize_categories.
    destruct category_mapping as [[|entry entries]|]; try done.
    apply (foldl_keeps (λ s, column_names (df s) = column_names (df self)));
      [|done].
    intros s entry' Hs. by rewrite standardize_category_names.
  - unfold remove_extra_whitespace.
    apply (foldl_keeps (λ s, column_names (df s) = column_names (df self)));
      [|done].
    intros s col Hs. by rewrite df_set_df, column_names_setitem.
  - done.
Qed.

(** ** The table stays rectangular *)

Lemma column_length d col :
  rectangular d → col ∈ column_names d → length (column d col) = len d.
Proof.
  intros [Hcells _] Hcol. unfold column, getitem.
  destruct (find _ _) as [s|] eqn:Hfind.
  - apply find_some in Hfind as [Hs _]. rewrite Forall_forall in Hcells.
    apply Hcells. by apply list_elem_of_In.
  - apply elem_of_column_names in Hcol as (s & Hs & Hname).
    apply list_elem_of_In in Hs.
    pose proof (find_none _ _ Hfind s Hs) as Hnone. simpl in Hnone.
    by rewrite bool_decide_eq_true_2 in Hnone.
Qed.

Lemma rectangular_setitem d col dt cells :
  rectangular d →
  (col ∈ column_names d → length cells = len d) →
  rectangular (setitem d col dt cells).
Proof.
  intros [Hcells Hnone] Hlen. split.
  - unfold setitem. simpl. rewrite Forall_forall in Hcells.
    apply Forall_forall. intros s' (s & -> & Hs)%list_elem_of_fmap.
    case_bool_decide as Hname; [|by apply Hcells].
    simpl. apply Hlen. rewrite <- Hname.
    by apply (list_elem_of_fmap_2 col_name).
  - unfold setitem. simpl. intros Hmap. apply Hnone.
    by destruct (columns d).
Qed.

(** Rewriting the cells of a column one by one keeps the frame
    rectangular. *)
Lemma rectangular_setitem_map d col dt f :
  rectangular d → rectangular (setitem d col dt (map f (column d col))).
Proof.
  intros Hd. apply rectangular_setitem; [done|].
  intros Hcol. rewrite length_map. by apply column_length.
Qed.

Lemma rectangular_getitem_mask d mask :
  rectangular d → rectangular (getitem_mask d mask).
Proof.
  intros [Hcells Hnone]. split.
  - unfold getitem_mask, len. simpl. rewrite Forall_forall in Hcells.
    apply Forall_forall. intros s' (s & -> & Hs)%list_elem_of_fmap.
    simpl. apply select_length_eq. by apply Hcells.
  - unfold getitem_mask. simpl. intros Hmap.
    rewrite Hnone; [apply select_nil|]. by destruct (columns d).
Qed.

Lemma rectangular_fill_column col self :
  rectangular (df self) → rectangular (df (fill_column col self)).
Proof.
  intros Hd. unfold fill_column. repeat case_bool_decide; try done.
  - by apply rectangular_setitem_map.
  - destruct (mode _); [done|]. by apply rectangular_setitem_map.
Qed.

Lemma rectangular_standardize_text_column col self :
  rectangular (df self) →
  rectangular (df (state (standardize_text_column col self))).
Proof.
  intros Hd. unfold standardize_text_column.
  assert (rectangular
            (setitem (df self) col object
               (map strip_cell (column (df self) col)))) as Hstripped
    by (by apply rectangular_setitem_map).
  repeat case_bool_decide; cbn [state]; rewrite ?df_log, ?df_set_df;
    try done.
  by apply rectangular_setitem_map.
Qed.

Lemma rectangular_parse_date_column `{ToDatetime} col self :
  rectangular (df self) → rectangular (df (parse_date_column col self)).
Proof.
  intros Hd. unfold parse_date_column.
  destruct (has_column _ _) eqn:Hcol; [|done].
  destruct (to_datetime _) as [e|parsed] eqn:Hparsed; [done|].
  assert (rectangular (setitem (df self) col datetime64 parsed)).
  { apply rectangular_setitem; [done|]. intros Hin.
    rewrite (to_datetime_length _ _ Hparsed). by apply column_length. }
  by case_bool_decide.
Qed.

(** X2. A rectangular table, in which every column has one cell per row,
    is still rectangular after any operation with any arguments, whether
    the call returns or raises: the rows that are dropped are dropped from
    every column and from the row labels alike, and a rewritten column
    keeps its length. *)
Theorem table_stays_rectangular `{ToDatetime}
    (op : operation) (self : DataCleaner) :
  rectangular (df self) → rectangular (df (state (call op self))).
Proof.
  intros Hd. destruct op; unfold call; cbn [state].
  - unfold remove_duplicates, drop_duplicates.
    destruct (empty (df self)); [by case_bool_decide|].
    destruct (frame_duplicated _ _); [|done].
    case_bool_decide; by apply rectangular_getitem_mask.
  - unfold handle_missing_values. case_bool_decide; [done|].
    case_bool_decide.
    + apply (foldl_keeps (λ s, rectangular (df s))); [|done].
      intros s col Hs. by apply rectangular_fill_column.
    + case_bool_decide; [|done]. by apply rectangular_getitem_mask.
  - unfold standardize_text_columns.
    apply (for_each_keeps (λ s, rectangular (df s))); [|done].
    intros s col Hs. by apply rectangular_standardize_text_column.
  - unfold clean_numeric_columns.
    apply (foldl_keeps (λ s, rectangular (df s))); [|done].
    intros s col Hs. rewrite df_flag_outliers. unfold remove_negative.
    destruct (existsb _ _); [|done]. case_bool_decide; [|done].
    by apply rectangular_getitem_mask.
  - unfold parse_dates.
    apply (foldl_keeps (λ s, rectangular (df s))); [|done].
    intros s col Hs. by apply rectangular_parse_date_column.
  - by rewrite df_validate_ids.
  - unfold standardize_categories.
    destruct category_mapping as [[|entry entries]|]; try done.
    apply (foldl_keeps (λ s, rectangular (df s))); [|done].
    intros s [col mapping] Hs. simpl.
    destruct (has_column _ _); [|done]. by apply rectangular_setitem_map.
  - unfold remove_extra_whitespace.
    apply (foldl_keeps (λ s, rectangular (df s))); [|done].
    intros s col Hs. by apply rectangular_setitem_map.
  - destruct Hd as [Hcells Hnone]. split.
    + unfold reset_index, len. simpl. rewrite length_seq. exact Hcells.
    + unfold reset_index. simpl. intros Hcols. unfold len.
      by rewrite (Hnone Hcols).
Qed.

Lemma table_stays_rectangular_witness :
  rectangular staff_table ∧
  rectangular
    (df (state (@call iso_dates (op_handle_missing_values "drop")
                  (init staff_table "Staff")))).
Proof.
  assert (rectangular staff_table) as Hd
    by (split; [repeat constructor|discriminate]).
  split; [exact Hd|].
  apply (@table_stays_rectangular iso_dates
           (op_handle_missing_values "drop") (init staff_table "Staff") Hd).
Defined.

(** ** [remove_duplicates] again *)

Lemma set_df_df self : set_df (df self) self = self.
Proof. by destruct self. Qed.

Lemma select_all {A} (l : list A) : select (replicate (length l) true) l = l.
Proof. induction l as [|x l IH]; simpl; [done|]. by rewrite IH. Qed.

Lemma getitem_mask_all d :
  rectangular d → getitem_mask d (replicate (len d) true) = d.
Proof.
  intros [Hcells _]. destruct d as [idx cols]. unfold getitem_mask, len in *.
  simpl in *. f_equal; [apply select_all|].
  rewrite <- (map_id cols) at 2. apply Forall_fmap_ext_1.
  eapply Forall_impl; [exact Hcells|]. intros [n dt cells] Hlen. simpl in *.
  by rewrite <- Hlen, select_all.
Qed.

Lemma duplicated_from_NoDup {A} `{EqDecision A} (seen l : list A) :
  NoDup l → (∀ x, x ∈ l → x ∉ seen) →
  duplicated_from seen l = replicate (length l) false.
Proof.
  intros Hl. revert seen. induction Hl as [|x l Hx Hl IH]; intros seen Hseen;
    simpl; [done|].
  rewrite decide_False by (apply Hseen; left). f_equal. apply IH.
  intros y Hy [->|Hin]%elem_of_cons; [done|].
  apply (Hseen y); [by right|done].
Qed.

Lemma rows_length d : rectangular d → length (rows d) = len d.
Proof. intros [Hcells _]. by apply rows_of_length. Qed.

(** The rows of some columns of a frame filtered by a mask are the
    filtered rows of these columns. *)
Lemma rows_of_select {A} (mask : list bool) (idx : list A) cols :
  rows_of (length (select mask idx))
    (map (λ s, mkSeries (col_name s) (col_dtype s)
                 (select mask (col_values s))) cols)
  = select mask (rows_of (length idx) cols).
Proof.
  induction cols as [|s cols IH]; simpl.
  - rewrite select_replicate. f_equal.
    apply select_length_eq. by rewrite length_replicate.
  - by rewrite select_zip_with, IH.
Qed.

Lemma rows_on_getitem_mask subset d mask :
  rows_on subset (getitem_mask d mask) = select mask (rows_on subset d).
Proof.
  unfold rows_on, getitem_mask, len. simpl.
  rewrite <- rows_of_select. f_equal.
  induction (columns d) as [|s cols IH]; [done|]. simpl.
  rewrite !filter_cons. simpl. case_decide; simpl; by rewrite IH.
Qed.

Lemma rows_on_empty subset d :
  rectangular d → empty d = true → rows_on subset d = [].
Proof.
  intros Hd Hempty. destruct (empty_rectangular d Hd Hempty) as [Hi _].
  unfold rows_on, len. rewrite Hi. apply rows_of_0.
Qed.

(** X3. On a rectangular table, a second [remove_duplicates()] right after
    the first finds nothing to remove: it returns the cleaner exactly as
    the first call left it, table and log. *)
Theorem remove_duplicates_twice (self : DataCleaner) :
  rectangular (df self) →
  let once := state (remove_duplicates all_columns self) in
  remove_duplicates all_columns once = Returned once.
Proof.
  intros Hd once.
  destruct (remove_duplicates_all_columns self) as (self' & Hcall & Hdf).
  assert (once = self') as -> by (unfold once; by rewrite Hcall).
  assert (rectangular (df self') ∧ NoDup (rows (df self'))) as [Hd' Hrows].
  { rewrite Hdf. destruct (empty (df self)) eqn:Hempty.
    - split; [done|]. destruct (empty_rectangular _ Hd Hempty) as [_ ->].
      constructor.
    - split; [by apply rectangular_getitem_mask|].
      rewrite rows_getitem_mask. apply unique_NoDup. }
  unfold remove_duplicates, drop_duplicates.
  assert ((if empty (df self') then Ok (df self')
           else match frame_duplicated all_columns (df self') with
                | Ok mask => Ok (getitem_mask (df self') (map negb mask))
                | Error e => Error e
                end) = Ok (df self')) as ->.
  { destruct (empty (df self')); [done|]. simpl.
    unfold duplicated. rewrite duplicated_from_NoDup; [|done|].
    - rewrite rows_length by done.
      replace (map negb (replicate (len (df self')) false))
        with (replicate (len (df self')) true)
        by (induction (len (df self')); simpl; by f_equal).
      by rewrite getitem_mask_all.
    - by intros x _ ?%elem_of_nil. }
  rewrite df_set_df, Z.sub_diag, bool_decide_eq_false_2 by lia.
  by rewrite set_df_df.
Qed.

Lemma remove_duplicates_twice_witness :
  rectangular ticket_table ∧
  let once := state (remove_duplicates all_columns (init ticket_table "Tickets")) in
  remove_duplicates all_columns once = Returned once.
Proof.
  assert (rectangular ticket_table) as Hd
    by (split; [repeat constructor|discriminate]).
  split; [exact Hd|].
  apply (remove_duplicates_twice (init ticket_table "Tickets") Hd).
Defined.

Lemma filter_none {A} (P : A → Prop) `{∀ x, Decision (P x)} (l : list A) :
  (∀ x, x ∈ l → ¬ P x) → filter P l = [].
Proof.
  induction l as [|x l IH]; intros Hl; [done|].
  rewrite filter_cons_False by (apply Hl; left).
  apply IH. intros y Hy. apply Hl. by right.
Qed.

(** X4. On a rectangular table, [remove_duplicates(subset)] with a subset
    of existing columns returns a table in which no two rows agree on all
    the columns of the subset; the rows it keeps are, in the order of the
    table, the rows that agree on the subset with no row before them, and
    they are kept whole. *)
Theorem remove_duplicates_subset (col : string) (cols : list string)
    (self : DataCleaner) :
  rectangular (df self) →
  (∀ c, c ∈ col :: cols → c ∈ column_names (df self)) →
  ∃ self',
    remove_duplicates (these col cols) self = Returned self' ∧
    NoDup (rows_on (col :: cols) (df self')) ∧
    (∀ key, key ∈ rows_on (col :: cols) (df self) →
            key ∈ rows_on (col :: cols) (df self')) ∧
    (let kept := map negb (duplicated (rows_on (col :: cols) (df self))) in
     rows (df self') = select kept (rows (df self)) ∧
     index (df self') = select kept (index (df self)) ∧
     ∀ i key, rows_on (col :: cols) (df self) !! i = Some key →
       (kept !! i = Some true ↔
        ∀ j, j < i → rows_on (col :: cols) (df self) !! j ≠ Some key)).
Proof.
  intros Hd Hcols.
  set (keys := rows_on (col :: cols) (df self)).
  set (kept := map negb (duplicated keys)).
  assert (∃ self',
    remove_duplicates (these col cols) self = Returned self' ∧
    df self' = if empty (df self) then df self
               else getitem_mask (df self) kept) as (self' & Hcall & Hdf).
  { unfold remove_duplicates, drop_duplicates.
    destruct (empty (df self)); [by case_bool_decide; eauto|].
    unfold frame_duplicated.
    rewrite (filter_none (λ n, n ∉ column_names (df self)))
      by (intros c Hc Hnot; by apply Hnot, Hcols).
    rewrite bool_decide_eq_true_2 by done. fold (rows_on (col :: cols) (df self)).
    fold keys. fold kept. case_bool_decide; eauto. }
  exists self'. split; [done|].
  assert (rows_on (col :: cols) (df self') = unique keys ∧
          rows (df self') = select kept (rows (df self)) ∧
          index (df self') = select kept (index (df self)))
    as (Hkeys & Hrows & Hindex).
  { rewrite Hdf. destruct (empty (df self)) eqn:Hempty.
    - destruct (empty_rectangular _ Hd Hempty) as [Hi Hr].
      unfold keys. rewrite (rows_on_empty _ _ Hd Hempty), Hr, Hi.
      by rewrite !select_nil.
    - by rewrite rows_on_getitem_mask, rows_getitem_mask. }
  rewrite Hkeys. split; [apply unique_NoDup|].
  split; [intros key; apply elem_of_unique|].
  split; [done|]. split; [done|].
  intros i key Hi.
  destruct (duplicated_lookup _ _ _ Hi) as (b & Hb & Hiff).
  unfold kept. rewrite list_lookup_fmap, Hb. simpl. split.
  - intros [= Hneg] j Hj Hrj. apply negb_true_iff in Hneg.
    assert (b = true) as ->; [apply Hiff; eauto|done].
  - intros Hfirst. f_equal. apply negb_true_iff.
    destruct b; [|done]. destruct Hiff as [Hex _].
    destruct (Hex eq_refl) as (j & Hj & Hrj). by destruct (Hfirst j Hj).
Qed.

Lemma remove_duplicates_subset_witness :
  rectangular issue_table ∧
  ∃ self',
    remove_duplicates (these "Location_ID" []) (init issue_table "Tickets")
    = Returned self' ∧
    NoDup (rows_on ["Location_ID"] (df self')).
Proof.
  assert (rectangular issue_table) as Hd
    by (split; [repeat constructor|discriminate]).
  split; [exact Hd|].
  destruct (remove_duplicates_subset "Location_ID" []
              (init issue_table "Tickets") Hd)
    as (self' & Hcall & Hnodup & _).
  - intros c ->%list_elem_of_singleton. left.
  - exists self'. split; [exact Hcall|exact Hnodup].
Defined.

(** X5. When the subset names a column that the table does not have,
    [remove_duplicates(subset)] on a table with rows and columns raises a
    [KeyError] that carries the names of the subset that are no columns,
    and leaves the table and the log as they were; on a table without rows
    or without columns it returns the cleaner untouched, whatever the
    subset. *)
Theorem remove_duplicates_missing_column (col : string) (cols : list string)
    (self : DataCleaner) :
  (∃ c, c ∈ col :: cols ∧ c ∉ column_names (df self)) →
  if empty (df self)
  then remove_duplicates (these col cols) self = Returned self
  else ∃ missing,
    remove_duplicates (these col cols) self = Raised (KeyError missing) self ∧
    ∀ n, n ∈ missing ↔ n ∈ col :: cols ∧ n ∉ column_names (df self).
Proof.
  intros (c & Hc & Hnot). unfold remove_duplicates, drop_duplicates.
  destruct (empty (df self)).
  - rewrite df_set_df, Z.sub_diag, bool_decide_eq_false_2 by lia.
    by rewrite set_df_df.
  - exists (filter (λ n, n ∉ column_names (df self)) (col :: cols)). split.
    + unfold frame_duplicated. rewrite bool_decide_eq_false_2; [done|].
      intros Hnil.
      by apply (filter_nil_not_elem_of
                  (λ n, n ∉ column_names (df self)) _ c Hnil Hnot).
    + intros n. rewrite list_elem_of_filter. tauto.
Qed.

Lemma remove_duplicates_missing_column_witness :
  ∃ missing,
    remove_duplicates (these "Location_ID" ["Floor"])
      (init issue_table "Tickets")
    = Raised (KeyError missing) (init issue_table "Tickets") ∧
    ∀ n, n ∈ missing ↔
         n ∈ ["Location_ID"; "Floor"] ∧ n ∉ column_names issue_table.
Proof.
  apply (remove_duplicates_missing_column "Location_ID" ["Floor"]
           (init issue_table "Tickets")).
  exists "Floor". split; [right; left|].
  apply (bool_decide_unpack _). vm_compute. exact I.
Defined.

(** ** [handle_missing_values] with strategy ['drop'] *)

Lemma select_filter {A} (f : A → bool) (l : list A) :
  select (map f l) l = filter (λ x, f x = true) l.
Proof.
  induction l as [|x l IH]; [done|]. simpl. rewrite filter_cons, IH.
  destruct (f x); by case_decide.
Qed.

Lemma Forall_zip_with_cons {A} (P : A → Prop) (l : list A) (k : list (list A)) :
  length l = length k →
  Forall (Forall P) (zip_with cons l k) ↔ Forall P l ∧ Forall (Forall P) k.
Proof.
  revert k. induction l as [|x l IH]; intros [|r k] Hlen; simpl in *;
    try done.
  rewrite !Forall_cons, IH by lia. tauto.
Qed.

(** A property holds for all the cells of all the rows exactly when it
    holds for all the cells of all the columns. *)
Lemma Forall_rows_of (P : value → Prop) n cols :
  Forall (λ s, length (col_values s) = n) cols →
  Forall (Forall P) (rows_of n cols)
  ↔ Forall (λ s, Forall P (col_values s)) cols.
Proof.
  induction 1 as [|s cols Hs Hcols IH]; simpl.
  - split; [constructor|]. intros _. apply Forall_replicate. constructor.
  - rewrite Forall_zip_with_cons by (by rewrite rows_of_length).
    rewrite Forall_cons, IH. tauto.
Qed.

Lemma missing_count_0_iff d :
  missing_count d = 0
  ↔ Forall (λ s, Forall (λ v, isnull v = false) (col_values s)) (columns d).
Proof.
  unfold missing_count. induction (columns d) as [|s cols IH]; simpl.
  - split; [constructor|done].
  - rewrite Forall_cons, <- IH, Forall_forall, <- count_null_0. lia.
Qed.

Lemma notnull_false v : notnull v = true ↔ isnull v = false.
Proof. unfold notnull. by destruct (isnull v). Qed.

Lemma forallb_notnull r :
  forallb notnull r = true ↔ Forall (λ v, isnull v = false) r.
Proof.
  rewrite forallb_forall, Forall_forall.
  split; intros Hr v Hv; apply notnull_false || apply notnull_false in Hr;
    try apply Hr; by apply list_elem_of_In.
Qed.

Lemma filter_all {A} (P : A → Prop) `{∀ x, Decision (P x)} (l : list A) :
  Forall P l → filter P l = l.
Proof.
  induction 1 as [|x l Hx _ IH]; [done|].
  by rewrite filter_cons_True, IH.
Qed.

(** X6. On a rectangular table, [handle_missing_values('drop')] leaves a
    table without any missing cell, whose rows are exactly the rows of the
    table that had no missing cell, in their order. *)
Theorem handle_missing_values_drop (self : DataCleaner) :
  rectangular (df self) →
  let after := handle_missing_values "drop" self in
  missing_count (df after) = 0 ∧
  rows (df after) = filter (λ r, forallb notnull r = true) (rows (df self)).
Proof.
  intros Hd after.
  assert (rectangular (df after)) as Hafter.
  { unfold after, handle_missing_values. repeat case_bool_decide; try done.
    by apply rectangular_getitem_mask. }
  assert (rows (df after)
          = filter (λ r, forallb notnull r = true) (rows (df self))) as Hrows.
  { unfold after, handle_missing_values. case_bool_decide as Hcount.
    - rewrite df_log. symmetry. apply filter_all.
      apply missing_count_0_iff in Hcount.
      apply (Forall_rows_of _ (len (df self))) in Hcount; [|apply Hd].
      eapply Forall_impl; [exact Hcount|]. intros r. apply forallb_notnull.
    - rewrite bool_decide_eq_false_2 by done.
      rewrite bool_decide_eq_true_2 by done.
      rewrite df_log, df_set_df. unfold dropna.
      by rewrite rows_getitem_mask, select_filter. }
  split; [|done].
  apply missing_count_0_iff, (Forall_rows_of _ (len (df after))); [apply Hafter|].
  fold (rows (df after)). rewrite Hrows. apply Forall_forall.
  intros r [Hr _]%list_elem_of_filter. by apply forallb_notnull.
Qed.

Lemma handle_missing_values_drop_witness :
  rectangular staff_table ∧
  missing_count (df (handle_missing_values "drop" (init staff_table "Staff")))
  = 0.
Proof.
  assert (rectangular staff_table) as Hd
    by (split; [repeat constructor|discriminate]).
  split; [exact Hd|].
  apply (handle_missing_values_drop (init staff_table "Staff") Hd).
Defined.

(** ** [handle_missing_values('auto')] twice *)

(** The modes of a column are present values of the column. *)
Lemma mode_elem_of l m : m ∈ mode l → m ∈ l ∧ isnull m = false.
Proof.
  unfold mode.
  set (present := filter (λ v, notnull v = true) l).
  set (modes := filter _ (unique present)).
  intros Hm.
  assert (m ∈ modes) as Hmodes.
  { destruct (sortable modes); [|done].
    by rewrite merge_sort_Permutation in Hm. }
  apply list_elem_of_filter in Hmodes as [_ Hunique].
  apply (proj1 (elem_of_unique _ _)) in Hunique.
  apply list_elem_of_filter in Hunique as [Hnull Hl].
  split; [done|]. by apply notnull_false.
Qed.

Lemma series_eta s : mkSeries (col_name s) (col_dtype s) (col_values s) = s.
Proof. by destruct s. Qed.

Lemma filled_present s : count_null (col_values s) = 0 → filled s = s.
Proof. intros Hnull. unfold filled. by rewrite Hnull. Qed.

Lemma filled_idemp s : filled (filled s) = filled s.
Proof.
  destruct (decide (0 < count_null (col_values s))) as [Hnull|Hnull];
    [|rewrite (filled_present s) by lia; apply filled_present; lia].
  destruct (decide (col_dtype s ∈ [int64; float64])) as [Hnumeric|Hnumeric].
  - assert (filled s = mkSeries (col_name s) (col_dtype s)
                         (fillna (of_float (median (col_values s)))
                            (col_values s))) as Hfilled.
    { unfold filled. by rewrite !bool_decide_eq_true_2. }
    destruct (median (col_values s)) as [q|] eqn:Hmedian; simpl in Hfilled.
    + apply filled_present. rewrite Hfilled. simpl.
      by apply count_null_fillna.
    + rewrite fillna_NaN, series_eta in Hfilled. by rewrite !Hfilled.
  - assert (filled s = match mode (col_values s) with
                       | m :: _ => mkSeries (col_name s) (col_dtype s)
                                     (fillna m (col_values s))
                       | [] => s
                       end) as Hfilled.
    { unfold filled. rewrite bool_decide_eq_true_2 by done.
      by rewrite bool_decide_eq_false_2. }
    destruct (mode (col_values s)) as [|m rest] eqn:Hmode.
    + by rewrite !Hfilled.
    + apply filled_present. rewrite Hfilled. simpl. apply count_null_fillna.
      apply (mode_elem_of (col_values s)). rewrite Hmode. left.
Qed.

(** X7. On a table with unique column names, a second
    [handle_missing_values('auto')] changes no cell: the table after two
    calls is the table after one.  What the first call could fill is
    filled, and what it could not fill, a column without a present value,
    the second cannot fill either. *)
Theorem handle_missing_values_auto_twice (self : DataCleaner) :
  unique_names (df self) →
  df (handle_missing_values "auto" (handle_missing_values "auto" self))
  = df (handle_missing_values "auto" self).
Proof.
  intros Hd.
  assert (unique_names (df (handle_missing_values "auto" self))) as Hd'.
  { rewrite handle_missing_values_auto_df by done. unfold unique_names.
    rewrite column_names_map_columns; [done|apply filled_name]. }
  rewrite (handle_missing_values_auto_df _ Hd').
  rewrite handle_missing_values_auto_df by done.
  rewrite map_columns_compose. apply map_columns_ext.
  intros s _. apply filled_idemp.
Qed.

Lemma handle_missing_values_auto_twice_witness :
  unique_names staff_table ∧
  df (handle_missing_values "auto"
        (handle_missing_values "auto" (init staff_table "Staff")))
  = df (handle_missing_values "auto" (init staff_table "Staff")).
Proof.
  assert (unique_names staff_table) as Hd
    by (apply (bool_decide_unpack _); vm_compute; exact I).
  split; [exact Hd|].
  apply (handle_missing_values_auto_twice (init staff_table "Staff") Hd).
Defined.

(** ** What [standardize_text_columns] leaves *)

(** X8. On a table with rows and unique column names,
    [standardize_text_columns] returns; afterwards no string of a text
    column starts or ends with whitespace, the cells of a text column that
    are no strings are as before, and the columns that are no text are as
    before. *)
Theorem standardize_text_columns_trims (self : DataCleaner) :
  unique_names (df self) → len (df self) ≠ 0 →
  ∃ self',
    standardize_text_columns self = Returned self' ∧
    index (df self') = index (df self) ∧
    ∀ s, s ∈ columns (df self) →
      if bool_decide (col_dtype s = object) then
        (∀ x, Str x ∈ column (df self') (col_name s) → Py.strip x = x) ∧
        (∀ i v, col_values s !! i = Some v →
                (∀ x, v ≠ Str x) →
                column (df self') (col_name s) !! i = Some v)
      else getitem (df self') (col_name s) = Some s.
Proof.
  intros Hd Hlen.
  destruct (standardize_text_columns_df self Hd Hlen) as (self' & Hcall & Hdf).
  exists self'. split; [done|]. split; [by rewrite Hdf|].
  intros s Hs.
  set (T := λ s, if bool_decide (col_dtype s = object)
                 then standardized (len (df self)) s else s) in Hdf.
  assert (∀ s, col_name (T s) = col_name s) as HT
    by (intros s0; unfold T; by case_bool_decide).
  assert (getitem (df self') (col_name s) = Some (T s)) as Hget.
  { rewrite <- HT. apply getitem_unique.
    - unfold unique_names. rewrite Hdf.
      by rewrite column_names_map_columns.
    - rewrite Hdf. by apply (list_elem_of_fmap_2 T). }
  unfold column. rewrite Hget. unfold T.
  case_bool_decide as Hobject; [|done].
  unfold standardized. cbn [col_values]. split.
  - intros x Hx. case_bool_decide.
    + apply list_elem_of_fmap in Hx as (y & Hxy & Hy).
      apply list_elem_of_fmap in Hy as (z & -> & _).
      destruct z; try done. simpl in Hxy. injection Hxy as ->.
      apply PyFacts.strip_title_strip.
    + apply list_elem_of_fmap in Hx as (z & Hxz & _).
      destruct z; try done. simpl in Hxz. injection Hxz as ->.
      apply PyFacts.strip_idemp.
  - intros i v Hi Hv. case_bool_decide.
    + rewrite !list_lookup_fmap, Hi. simpl. destruct v; try done.
      by destruct (Hv s0).
    + rewrite list_lookup_fmap, Hi. simpl. destruct v; try done.
      by destruct (Hv s0).
Qed.

Lemma standardize_text_columns_trims_witness :
  unique_names shift_table ∧
  ∃ self',
    standardize_text_columns (init shift_table "Staff") = Returned self' ∧
    ∀ x, Str x ∈ column (df self') "Shift" → Py.strip x = x.
Proof.
  assert (unique_names shift_table) as Hd
    by (apply (bool_decide_unpack _); vm_compute; exact I).
  split; [exact Hd|].
  destruct (standardize_text_columns_trims (init shift_table "Staff") Hd)
    as (self' & Hcall & _ & Hcolumns); [discriminate|].
  exists self'. split; [exact Hcall|].
  apply (Hcolumns (mkSeries "Shift" object
                     [Str " night"; Str "NIGHT "; Str "night"; Str "night";
                      Str "night"])).
  left.
Defined.

(** ** [remove_extra_whitespace] *)

Lemma collapse_from_single_spaced b s :
  single_spaced_from b (Py.collapse_from b s) = true.
Proof.
  revert b. induction s as [|c s IH]; intros b; simpl; [done|].
  destruct (Py.isspace c) eqn:Hc.
  - destruct b; [apply IH|]. simpl. apply IH.
  - simpl. rewrite Hc. apply IH.
Qed.

Lemma collapse_from_idemp s :
  Py.collapse_from false (Py.collapse_from false s) = Py.collapse_from false s ∧
  Py.collapse_from true (Py.collapse_from true s) = Py.collapse_from true s ∧
  Py.collapse_from false (Py.collapse_from true s) = Py.collapse_from true s.
Proof.
  induction s as [|c s (IHff & IHtt & IHft)]; simpl; [done|].
  destruct (Py.isspace c) eqn:Hc; simpl.
  - by rewrite IHtt.
  - by rewrite Hc, IHff.
Qed.

Lemma collapse_cell_idemp x : collapse_cell (collapse_cell x) = collapse_cell x.
Proof.
  destruct x; simpl; try done. unfold Py.collapse_whitespace.
  by rewrite (proj1 (collapse_from_idemp s)).
Qed.

Lemma remove_extra_whitespace_df self :
  unique_names (df self) →
  df (remove_extra_whitespace self)
  = map_columns (λ s, if bool_decide (col_dtype s = object)
                      then collapsed s else s) (df self).
Proof.
  intros Hd. unfold remove_extra_whitespace.
  rewrite (foldl_columns collapsed _ (len (df self))); try done.
  - apply map_columns_ext. intros s Hs.
    rewrite (bool_decide_ext
               (col_name s ∈ select_dtypes [object] (df self))
               (col_dtype s = object)); [done|].
    rewrite elem_of_select_dtypes by done. apply list_elem_of_singleton.
  - intros s col Hs _. rewrite df_set_df.
    by rewrite <- (setitem_column _ _ collapsed Hs (λ _, eq_refl)).
  - by apply select_dtypes_NoDup.
Qed.

Lemma remove_extra_whitespace_fields self :
  name (remove_extra_whitespace self) = name self ∧
  cleaning_report (remove_extra_whitespace self) = cleaning_report self ∧
  stdout (remove_extra_whitespace self) = stdout self.
Proof.
  unfold remove_extra_whitespace.
  apply (foldl_keeps (λ s, name s = name self ∧
                           cleaning_report s = cleaning_report self ∧
                           stdout s = stdout self)); [|done].
  by intros s col Hs.
Qed.

(** X9. On a table with unique column names, after
    [remove_extra_whitespace] every string of a text column has single
    spaces for whitespace: no tab or line break is left and no two
    whitespace characters follow each other.  The other cells and columns,
    the row labels and the log are as before, and a second call changes
    nothing at all. *)
Theorem remove_extra_whitespace_single_spaces (self : DataCleaner) :
  unique_names (df self) →
  let after := remove_extra_whitespace self in
  index (df after) = index (df self) ∧
  cleaning_report after = cleaning_report self ∧
  remove_extra_whitespace after = after ∧
  ∀ s, s ∈ columns (df self) →
    if bool_decide (col_dtype s = object) then
      (∀ x, Str x ∈ column (df after) (col_name s) → single_spaced x = true) ∧
      (∀ i v, col_values s !! i = Some v →
              (∀ x, v ≠ Str x) →
              column (df after) (col_name s) !! i = Some v)
    else getitem (df after) (col_name s) = Some s.
Proof.
  intros Hd after.
  pose proof (remove_extra_whitespace_df self Hd) as Hdf. fold after in Hdf.
  set (T := λ s, if bool_decide (col_dtype s = object)
                 then collapsed s else s) in Hdf.
  assert (∀ s, col_name (T s) = col_name s) as HT
    by (intros s0; unfold T; by case_bool_decide).
  assert (unique_names (df after)) as Hd'.
  { unfold unique_names. rewrite Hdf. by rewrite column_names_map_columns. }
  split; [by rewrite Hdf|].
  split; [apply remove_extra_whitespace_fields|].
  split.
  { destruct (remove_extra_whitespace_fields after) as (Hn & Hr & Ho).
    pose proof (remove_extra_whitespace_df after Hd') as Hdf2.
    assert (df (remove_extra_whitespace after) = df after) as Hsame.
    { rewrite Hdf2, Hdf, map_columns_compose. apply map_columns_ext.
      intros s _. unfold compose, T.
      destruct (decide (col_dtype s = object)) as [Hobject|Hobject].
      - rewrite (bool_decide_eq_true_2 _ Hobject).
        rewrite bool_decide_eq_true_2 by done.
        unfold collapsed. simpl. f_equal. rewrite map_map.
        apply map_ext, collapse_cell_idemp.
      - rewrite (bool_decide_eq_false_2 _ Hobject).
        by rewrite (bool_decide_eq_false_2 _ Hobject). }
    destruct (remove_extra_whitespace after), after; simpl in *. congruence. }
  intros s Hs.
  assert (getitem (df after) (col_name s) = Some (T s)) as Hget.
  { rewrite <- HT. apply getitem_unique; [done|].
    rewrite Hdf. by apply (list_elem_of_fmap_2 T). }
  unfold column. rewrite Hget. unfold T.
  case_bool_decide as Hobject; [|done].
  unfold collapsed. cbn [col_values]. split.
  - intros x (z & Hxz & _)%list_elem_of_fmap.
    destruct z; try done. simpl in Hxz. injection Hxz as ->.
    apply collapse_from_single_spaced.
  - intros i v Hi Hv. rewrite list_lookup_fmap, Hi. simpl.
    destruct v; try done. by destruct (Hv s0).
Qed.

Lemma remove_extra_whitespace_single_spaces_witness :
  unique_names room_table ∧
  remove_extra_whitespace (remove_extra_whitespace (init room_table "Locations"))
  = remove_extra_whitespace (init room_table "Locations").
Proof.
  assert (unique_names room_table) as Hd
    by (apply (bool_decide_unpack _); vm_compute; exact I).
  split; [exact Hd|].
  apply (remove_extra_whitespace_single_spaces (init room_table "Locations") Hd).
Defined.

(** ** What [clean_numeric_columns] removes and what it keeps *)

Lemma getitem_getitem_mask d mask col :
  getitem (getitem_mask d mask) col
  = (λ s, mkSeries (col_name s) (col_dtype s) (select mask (col_values s)))
      <$> getitem d col.
Proof.
  unfold getitem, getitem_mask. simpl.
  induction (columns d) as [|s cols IH]; simpl; [done|].
  case_bool_decide; [done|apply IH].
Qed.

Lemma column_getitem_mask d mask col :
  column (getitem_mask d mask) col = select mask (column d col).
Proof.
  unfold column. rewrite getitem_getitem_mask.
  destruct (getitem d col); simpl; [done|]. by rewrite select_nil.
Qed.

Lemma schema_getitem_mask d mask : schema (getitem_mask d mask) = schema d.
Proof. unfold schema, getitem_mask. simpl. by rewrite map_map. Qed.

Lemma elem_of_select_map {A} (f : A → bool) (l : list A) x :
  x ∈ select (map f l) l → f x = true.
Proof. rewrite select_filter. by intros [? _]%list_elem_of_filter. Qed.

Lemma count_true_0 mask : count_true mask = 0 ↔ ∀ b, b ∈ mask → b = false.
Proof.
  induction mask as [|b mask IH]; [by split; [intros _ ? ?%elem_of_nil|]|].
  rewrite count_true_cons. split.
  - intros Hcount b' [->|Hb']%elem_of_cons; [by destruct b|].
    apply IH; [|done]. destruct b; lia.
  - intros Hall. rewrite (Hall b) by left. apply IH.
    intros b' Hb'. apply Hall. by right.
Qed.

Lemma ge_float_not_lt v : ge_float v (Some 0%Qc) = true → lt_float v (Some 0%Qc) = false.
Proof.
  destruct v; simpl; try done. intros Hge%bool_decide_eq_true.
  apply bool_decide_eq_false. by apply Qcle_not_lt.
Qed.

Lemma df_remove_negative col self :
  df (remove_negative col self) = df self ∨
  df (remove_negative col self)
  = getitem_mask (df self)
      (map (λ v, ge_float v (Some 0%Qc)) (column (df self) col)).
Proof.
  unfold remove_negative. destruct (existsb _ _); [|by left].
  case_bool_decide; [by right|by left].
Qed.

Lemma no_negative_select mask l : no_negative l → no_negative (select mask l).
Proof.
  intros Hl v Hv. apply Hl. eapply elem_of_sublist; [exact Hv|].
  apply select_sublist.
Qed.

(** A turn of the loop leaves no negative number where there was none... *)
Lemma remove_negative_keeps col other self :
  no_negative (column (df self) other) →
  no_negative (column (df (remove_negative col self)) other).
Proof.
  intros Hother. destruct (df_remove_negative col self) as [->| ->]; [done|].
  rewrite column_getitem_mask. by apply no_negative_select.
Qed.

(** ... and none in the column it visits, when its name holds a keyword. *)
Lemma remove_negative_column col self :
  names_quantity col = true →
  no_negative (column (df (remove_negative col self)) col).
Proof.
  intros Hkeyword. unfold remove_negative. fold (names_quantity col).
  rewrite Hkeyword. case_bool_decide as Hcount.
  - rewrite df_log, df_set_df, column_getitem_mask.
    intros v Hv%elem_of_select_map. by apply ge_float_not_lt.
  - assert (count_true (map (λ v, lt_float v (Some 0%Qc))
                          (column (df self) col)) = 0) as Hzero by lia.
    intros v Hv. apply (proj1 (count_true_0 _) Hzero).
    by apply (list_elem_of_fmap_2 (λ v, lt_float v (Some 0%Qc))).
Qed.

Lemma clean_numeric_columns_loop names visited self :
  (∀ col, col ∈ visited → names_quantity col = true →
          no_negative (column (df self) col)) →
  ∀ col, col ∈ visited ++ names → names_quantity col = true →
    no_negative
      (column (df (foldl (λ self col,
                            flag_outliers col (remove_negative col self))
                     self names)) col).
Proof.
  revert visited self. induction names as [|c names IH];
    intros visited self Hvisited col Hcol Hkeyword.
  - rewrite app_nil_r in Hcol. simpl. by apply Hvisited.
  - simpl. apply (IH (visited ++ [c])); [|by rewrite <- app_assoc|done].
    intros col' Hcol' Hkeyword'. rewrite df_flag_outliers.
    apply elem_of_app in Hcol' as [Hcol'|Hcol'].
    + apply remove_negative_keeps. by apply Hvisited.
    + apply list_elem_of_singleton in Hcol' as ->.
      by apply remove_negative_column.
Qed.

Lemma clean_numeric_columns_schema self :
  schema (df (clean_numeric_columns self)) = schema (df self).
Proof.
  unfold clean_numeric_columns.
  apply (foldl_keeps (λ s, schema (df s) = schema (df self))); [|done].
  intros s col Hs. rewrite df_flag_outliers.
  destruct (df_remove_negative col s) as [->| ->]; [done|].
  by rewrite schema_getitem_mask.
Qed.

Lemma schema_column_names d : column_names d = (schema d).*1.
Proof. unfold column_names, schema. by rewrite <- list_fmap_compose. Qed.

Lemma elem_of_schema d n dt :
  (n, dt) ∈ schema d ↔ ∃ s, s ∈ columns d ∧ col_name s = n ∧ col_dtype s = dt.
Proof.
  unfold schema. rewrite list_elem_of_fmap. split.
  - intros (s & [= -> ->] & Hs). eauto.
  - intros (s & Hs & <- & <-). eauto.
Qed.

(** X10. On a table with unique column names, after
    [clean_numeric_columns] no numeric column whose name holds one of the
    keywords (id, cost, time, hours, mins, size, floor) has a cell below
    zero. *)
Theorem clean_numeric_columns_no_negative (self : DataCleaner) :
  unique_names (df self) →
  ∀ s, s ∈ columns (df (clean_numeric_columns self)) →
    col_dtype s ∈ [int64; float64] →
    names_quantity (col_name s) = true →
    ∀ v, v ∈ col_values s → lt_float v (Some 0%Qc) = false.
Proof.
  intros Hd s Hs Hnumeric Hkeyword.
  pose proof (clean_numeric_columns_schema self) as Hschema.
  assert (unique_names (df (clean_numeric_columns self))) as Hd'.
  { unfold unique_names. by rewrite schema_column_names, Hschema,
      <- schema_column_names. }
  rewrite <- (column_unique _ s Hd' Hs).
  apply (clean_numeric_columns_loop _ [] self); [|simpl|done].
  - by intros col ?%elem_of_nil.
  - assert ((col_name s, col_dtype s) ∈ schema (df self))
      as (s0 & Hs0 & Hname & Hdtype)%elem_of_schema.
    { rewrite <- Hschema. apply elem_of_schema. eauto. }
    rewrite <- Hname. apply (list_elem_of_fmap_2 col_name).
    apply list_elem_of_filter. by rewrite Hdtype.
Qed.

Lemma clean_numeric_columns_no_negative_witness :
  unique_names issue_table ∧
  ∀ v, v ∈ column (df (clean_numeric_columns (init issue_table "Tickets")))
             "Response_time_mins" →
       lt_float v (Some 0%Qc) = false.
Proof.
  assert (unique_names issue_table) as Hd
    by (apply (bool_decide_unpack _); vm_compute; exact I).
  split; [exact Hd|].
  apply (clean_numeric_columns_no_negative (init issue_table "Tickets") Hd
           (mkSeries "Response_time_mins" float64 [int 5])).
  - apply (bool_decide_unpack _). vm_compute. exact I.
  - right. left.
  - reflexivity.
Defined.

(** X11. [clean_numeric_columns] only drops rows: the rows it leaves are
    rows of the table, in their order and with their labels, and the
    columns keep their names and dtypes.  No cell is rewritten, and the
    extreme outliers it reports stay in the table. *)
Theorem clean_numeric_columns_only_drops_rows (self : DataCleaner) :
  rows (df (clean_numeric_columns self)) `sublist_of` rows (df self) ∧
  index (df (clean_numeric_columns self)) `sublist_of` index (df self) ∧
  schema (df (clean_numeric_columns self)) = schema (df self).
Proof.
  split; [|split; [|apply clean_numeric_columns_schema]].
  - unfold clean_numeric_columns.
    apply (foldl_keeps (λ s, rows (df s) `sublist_of` rows (df self)));
      [|done].
    intros s col Hs. rewrite df_flag_outliers.
    destruct (df_remove_negative col s) as [->| ->]; [done|].
    rewrite rows_getitem_mask. etrans; [apply select_sublist|done].
  - unfold clean_numeric_columns.
    apply (foldl_keeps (λ s, index (df s) `sublist_of` index (df self)));
      [|done].
    intros s col Hs. rewrite df_flag_outliers.
    destruct (df_remove_negative col s) as [->| ->]; [done|].
    simpl. etrans; [apply select_sublist|done].
Qed.

Lemma elem_of_column d col v :
  v ∈ column d col → ∃ s, s ∈ columns d ∧ v ∈ col_values s.
Proof.
  unfold column, getitem. destruct (find _ _) as [s|] eqn:Hfind.
  - apply find_some in Hfind as [Hs _]. apply list_elem_of_In in Hs. eauto.
  - by intros ?%elem_of_nil.
Qed.

(** X12. A table that holds no number below zero comes out of
    [clean_numeric_columns] exactly as it went in: the report of extreme
    outliers touches the log only. *)
Theorem clean_numeric_columns_keeps_clean_table (self : DataCleaner) :
  (∀ s, s ∈ columns (df self) → no_negative (col_values s)) →
  df (clean_numeric_columns self) = df self.
Proof.
  intros Hclean. unfold clean_numeric_columns.
  apply (foldl_keeps (λ s, df s = df self)); [|done].
  intros s col Hs. rewrite df_flag_outliers. unfold remove_negative.
  destruct (existsb _ _); [|done].
  rewrite bool_decide_eq_false_2; [done|].
  assert (count_true (map (λ v, lt_float v (Some 0%Qc)) (column (df s) col))
          = 0) as ->; [|lia].
  apply count_true_0. intros b (v & -> & Hv)%list_elem_of_fmap.
  rewrite Hs in Hv. apply elem_of_column in Hv as (s0 & Hs0 & Hv).
  by apply (Hclean s0).
Qed.

Lemma clean_numeric_columns_keeps_clean_table_witness :
  df (clean_numeric_columns (init staff_table "Staff")) = staff_table.
Proof.
  apply (clean_numeric_columns_keeps_clean_table (init staff_table "Staff")).
  intros s Hs v Hv.
  repeat (apply elem_of_cons in Hs as [->|Hs];
          [repeat (apply elem_of_cons in Hv as [->|Hv]; [reflexivity|]);
           by apply elem_of_nil in Hv|]).
  by apply elem_of_nil in Hs.
Defined.

(** ** When [validate_ids] stays silent *)

Lemma duplicated_from_none {A} `{EqDecision A} (seen l : list A) :
  count_true (duplicated_from seen l) = 0 →
  NoDup l ∧ ∀ x, x ∈ l → x ∉ seen.
Proof.
  revert seen. induction l as [|x l IH]; intros seen; simpl.
  - intros _. split; [constructor|]. by intros x ?%elem_of_nil.
  - case_decide as Hseen; rewrite count_true_cons; [simpl; lia|].
    intros Hcount. destruct (IH (x :: seen)) as [Hl Hnot]; [simpl in *; lia|].
    split.
    + constructor; [|done]. intros Hx. apply (Hnot x Hx). left.
    + intros y [->|Hy]%elem_of_cons; [done|].
      intros Hin. apply (Hnot y Hy). by right.
Qed.

(** No cell is flagged as a duplicate exactly when the cells are distinct. *)
Lemma duplicated_none {A} `{EqDecision A} (l : list A) :
  count_true (duplicated l) = 0 ↔ NoDup l.
Proof.
  split.
  - by intros [Hl _]%duplicated_from_none.
  - intros Hl. unfold duplicated. rewrite duplicated_from_NoDup; [|done|].
    + apply count_true_0. by intros b [-> _]%elem_of_replicate.
    + by intros x _ ?%elem_of_nil.
Qed.

Lemma app_singleton_ne {A} (l : list A) x : l ++ [x] ≠ l.
Proof. intros Heq. apply (f_equal length) in Heq. rewrite length_app in Heq. simpl in Heq. lia. Qed.

(** X13. For a column of the table, [validate_ids([col])] appends nothing
    to the log exactly when the column has no missing cell and, if it is a
    primary identifier (its name ends with [_ID], or is [Ticket_ID] or
    [Cleaner_ID]), its cells are pairwise distinct. *)
Theorem validate_ids_silent (col : string) (self : DataCleaner) :
  col ∈ column_names (df self) →
  cleaning_report (validate_ids (Some [col]) self) = cleaning_report self
  ↔ (is_primary_id col = true → NoDup (column (df self) col)) ∧
    count_null (column (df self) col) = 0.
Proof.
  intros Hcol%has_column_true. unfold validate_ids. cbn [foldl].
  unfold validate_id_column. rewrite Hcol. fold (is_primary_id col).
  destruct (is_primary_id col).
  - destruct (decide (0 < count_true (duplicated (column (df self) col))))
      as [Hdup|Hdup].
    + rewrite (bool_decide_eq_true_2 _ Hdup). split.
      * intros Hreport. exfalso. revert Hreport.
        case_bool_decide; rewrite ?df_log, ?cleaning_report_log.
        -- rewrite <- app_assoc. intros Heq.
           apply (f_equal length) in Heq. rewrite length_app in Heq.
           simpl in Heq. lia.
        -- apply app_singleton_ne.
      * intros [Hnodup _]. apply duplicated_none in Hnodup; [lia|done].
    + rewrite (bool_decide_eq_false_2 _ Hdup).
      assert (NoDup (column (df self) col)) as Hnodup
        by (apply duplicated_none; lia).
      case_bool_decide as Hnull.
      * split; [intros Heq; by apply app_singleton_ne in Heq|]. lia.
      * split; [|done]. intros _. split; [done|lia].
  - case_bool_decide as Hnull.
    + split; [intros Heq; by apply app_singleton_ne in Heq|]. lia.
    + split; [|done]. intros _. split; [done|lia].
Qed.

Lemma validate_ids_silent_witness :
  cleaning_report (validate_ids (Some ["Location_ID"]) (init issue_table "Tickets"))
  = []
  ↔ (is_primary_id "Location_ID" = true →
     NoDup (column issue_table "Location_ID")) ∧
    count_null (column issue_table "Location_ID") = 0.
Proof.
  apply (validate_ids_silent "Location_ID" (init issue_table "Tickets")).
  left.
Defined.

(** ** The columns that an operation does not visit *)

Lemma getitem_parse_date_column `{ToDatetime} col other self :
  other ≠ col →
  getitem (df (parse_date_column col self)) other = getitem (df self) other.
Proof.
  intros Hne. unfold parse_date_column. destruct (has_column _ _); [|done].
  destruct (to_datetime _); [done|].
  case_bool_decide; by apply getitem_setitem_ne.
Qed.

(** X14. [parse_dates] leaves every column that it does not visit, with
    its dtype and its cells, and the row labels: with a list of columns
    the columns that are not listed, and without a list the columns whose
    name, in lower case, does not hold [date]. *)
Theorem parse_dates_other_columns `{ToDatetime}
    (date_columns : option (list string)) (other : string)
    (self : DataCleaner) :
  ¬ is_date_column date_columns other →
  getitem (df (parse_dates date_columns self)) other = getitem (df self) other ∧
  index (df (parse_dates date_columns self)) = index (df self).
Proof.
  intros Hother. unfold parse_dates.
  set (visited := match date_columns with Some l => l | None => _ end).
  assert (other ∉ visited) as Hnot.
  { unfold visited. destruct date_columns as [l|]; [done|].
    by intros [Hdate _]%list_elem_of_filter. }
  clearbody visited. split.
  - revert self. induction visited as [|col cols IH]; intros self; [done|].
    apply not_elem_of_cons in Hnot as [Hne Hnot]. simpl.
    rewrite IH by done. by apply getitem_parse_date_column.
  - apply (foldl_keeps (λ s, index (df s) = index (df self))); [|done].
    intros s col Hs. rewrite <- Hs. unfold parse_date_column.
    destruct (has_column _ _); [|done]. destruct (to_datetime _); [done|].
    by case_bool_decide.
Qed.

Lemma parse_dates_other_columns_witness :
  getitem (df (@parse_dates iso_dates None (init issue_table "Tickets")))
    "Issue_type"
  = getitem issue_table "Issue_type" ∧
  index (df (@parse_dates iso_dates None (init issue_table "Tickets")))
  = index issue_table.
Proof.
  apply (@parse_dates_other_columns iso_dates None "Issue_type"
           (init issue_table "Tickets")).
  simpl. discriminate.
Defined.

(** X15. The names that are no columns of the table are skipped: when none
    of the listed columns exists, [parse_dates] and [validate_ids] return
    the cleaner as it is, without a log entry, and so does
    [standardize_categories] when none of the mapped columns exists. *)
Theorem absent_columns_are_skipped `{ToDatetime} (cols : list string)
    (mapping : list (string * list (value * value))) (self : DataCleaner) :
  (∀ col, col ∈ cols → col ∉ column_names (df self)) →
  (∀ entry, entry ∈ mapping → entry.1 ∉ column_names (df self)) →
  parse_dates (Some cols) self = self ∧
  validate_ids (Some cols) self = self ∧
  standardize_categories (Some mapping) self = self.
Proof.
  intros Hcols Hmapping.
  assert (∀ col, col ∉ column_names (df self) → has_column (df self) col = false)
    as Habsent.
  { intros col Hcol. by apply bool_decide_eq_false. }
  split; [|split].
  - unfold parse_dates. induction cols as [|col cols IH]; [done|]. simpl.
    unfold parse_date_column at 2. rewrite Habsent by (apply Hcols; left).
    apply IH. intros c Hc. apply Hcols. by right.
  - unfold validate_ids. induction cols as [|col cols IH]; [done|]. simpl.
    unfold validate_id_column at 2. rewrite Habsent by (apply Hcols; left).
    apply IH. intros c Hc. apply Hcols. by right.
  - unfold standardize_categories. destruct mapping as [|entry entries]; [done|].
    generalize dependent (entry :: entries). intros l Hl.
    induction l as [|[col m] l IH]; [done|]. simpl.
    rewrite Habsent by (apply (Hl (col, m)); left).
    apply IH. intros e He. apply Hl. by right.
Qed.

Lemma absent_columns_are_skipped_witness :
  @parse_dates iso_dates (Some ["Date"]) (init issue_table "Tickets")
  = init issue_table "Tickets" ∧
  validate_ids (Some ["Date"]) (init issue_table "Tickets")
  = init issue_table "Tickets" ∧
  standardize_categories (Some [("Status", [(Str "open", Str "Open")])])
    (init issue_table "Tickets")
  = init issue_table "Tickets".
Proof.
  apply (@absent_columns_are_skipped iso_dates ["Date"]
           [("Status", [(Str "open", Str "Open")])]
           (init issue_table "Tickets")).
  - intros col ->%list_elem_of_singleton.
    apply (bool_decide_unpack _). vm_compute. exact I.
  - intros entry ->%list_elem_of_singleton.
    apply (bool_decide_unpack _). vm_compute. exact I.
Defined.

(** ** What is printed is what is logged *)

Lemma prints_report_log n message self :
  prints_report n self → prints_report n (log message self).
Proof.
  intros [Hname Hout]. split; [done|].
  unfold printed, log. simpl. rewrite map_app, Hout. done.
Qed.

Lemma prints_report_set_df n d self :
  prints_report n self → prints_report n (set_df d self).
Proof. by intros [Hname Hout]. Qed.

Local Ltac prints_report :=
  repeat first
    [ assumption
    | apply prints_report_log
    | apply prints_report_set_df
    | case_bool_decide
    | match goal with |- context [match ?x with _ => _ end] => destruct x end ].

(** X16. Every operation keeps the name of the cleaner, and keeps what was
    printed in step with the report: if the lines printed so far are the
    entries of the report, each behind the name of the table in brackets,
    they still are after the call, whether it returns or raises. *)
Theorem printed_lines_follow_report `{ToDatetime}
    (op : operation) (self : DataCleaner) :
  stdout self = printed self →
  name (state (call op self)) = name self ∧
  stdout (state (call op self)) = printed (state (call op self)).
Proof.
  intros Hout.
  assert (prints_report (name self) self) as Hself by done.
  change (prints_report (name self) (state (call op self))).
  destruct op; unfold call; cbn [state].
  - unfold remove_duplicates. destruct (drop_duplicates _ _); [|done].
    case_bool_decide; cbn [state]; prints_report.
  - unfold handle_missing_values. case_bool_decide; [prints_report|].
    case_bool_decide; [|prints_report].
    apply foldl_keeps; [|prints_report].
    intros s col Hs. unfold fill_column. prints_report.
  - unfold standardize_text_columns. apply for_each_keeps; [|done].
    intros s col Hs. unfold standardize_text_column.
    repeat case_bool_decide; cbn [state]; prints_report.
  - unfold clean_numeric_columns. apply foldl_keeps; [|done].
    intros s col Hs. unfold flag_outliers, remove_negative.
    destruct (_ && _), (existsb _ _); prints_report.
  - unfold parse_dates. apply foldl_keeps; [|done].
    intros s col Hs. unfold parse_date_column.
    destruct (has_column _ _); [|done]. destruct (to_datetime _);
      prints_report.
  - unfold validate_ids. apply foldl_keeps; [|done].
    intros s col Hs. unfold validate_id_column.
    destruct (has_column _ _); [|done]. destruct (_ || _); prints_report.
  - unfold standardize_categories.
    destruct category_mapping as [[|entry entries]|]; try done.
    apply foldl_keeps; [|done].
    intros s [col mapping] Hs. simpl. destruct (has_column _ _); prints_report.
  - unfold remove_extra_whitespace. apply foldl_keeps; [|done].
    intros s col Hs. prints_report.
  - unfold reset_index. prints_report.
Qed.

Lemma printed_lines_follow_report_witness :
  let after :=
    state (@call iso_dates (op_remove_duplicates all_columns)
             (init ticket_table "Tickets")) in
  name after = "Tickets" ∧ stdout after = printed after.
Proof.
  apply (@printed_lines_follow_report iso_dates
           (op_remove_duplicates all_columns) (init ticket_table "Tickets")).
  reflexivity.
Defined.

(** ** The chains of the driver *)

Lemma select_dtypes_schema include d d' :
  schema d = schema d' → select_dtypes include d = select_dtypes include d'.
Proof.
  unfold schema, select_dtypes. generalize (columns d'). 
  induction (columns d) as [|s cols IH]; intros [|s' cols'] Hschema;
    simpl in *; try done.
  injection Hschema as Hname Hdtype Hrest.
  rewrite !filter_cons, Hdtype. case_decide; simpl; rewrite ?Hname;
    by rewrite (IH cols').
Qed.

Lemma schema_map_columns f d :
  (∀ s, col_name (f s) = col_name s ∧ col_dtype (f s) = col_dtype s) →
  schema (map_columns f d) = schema d.
Proof.
  intros Hf. unfold schema, map_columns. simpl. rewrite map_map.
  apply map_ext. intros s. by destruct (Hf s) as [-> ->].
Qed.

(** [remove_duplicates()] returns; it keeps the schema, and the table has
    rows afterwards exactly when it had rows before. *)
Lemma remove_duplicates_returns self :
  rectangular (df self) →
  ∃ self',
    remove_duplicates all_columns self = Returned self' ∧
    schema (df self') = schema (df self) ∧
    (len (df self') = 0 ↔ len (df self) = 0).
Proof.
  intros Hd.
  destruct (remove_duplicates_all_columns self) as (self' & Hcall & Hdf).
  exists self'. split; [done|]. rewrite Hdf.
  destruct (empty (df self)) eqn:Hempty; [done|].
  split; [apply schema_getitem_mask|].
  pose proof (rows_length _ Hd) as Hrows.
  unfold empty in Hempty. apply orb_false_iff in Hempty as [_ Hindex].
  apply bool_decide_eq_false in Hindex.
  unfold getitem_mask, len in *. simpl.
  destruct (index (df self)) as [|i idx]; [done|].
  destruct (rows (df self)) as [|r rs]; [done|]. by simpl.
Qed.

(** With rows, [standardize_text_columns] returns. *)
Lemma standardize_text_columns_returns self :
  len (df self) ≠ 0 → ∃ self', standardize_text_columns self = Returned self'.
Proof.
  intros Hlen. eexists. unfold standardize_text_columns.
  apply (for_each_foldl (λ s, len (df s) = len (df self))); [|done].
  intros s col Hs. split; [|by rewrite standardize_text_column_len].
  unfold standardize_text_column.
  rewrite df_set_df, len_setitem, Hs, bool_decide_eq_false_2 by done.
  by case_bool_decide.
Qed.

Lemma index_reset_index self :
  index (df (reset_index self)) = seq 0 (len (df (reset_index self))).
Proof. by rewrite reset_index_len. Qed.

Lemma clean_with_text_outcome id_columns self :
  rectangular (df self) → unique_names (df self) →
  if bool_decide (len (df self) = 0 ∧ select_dtypes [object] (df self) ≠ [])
  then ∃ s, clean_with_text id_columns self = Raised ZeroDivisionError s
  else ∃ s, clean_with_text id_columns self = Returned s ∧
            index (df s) = seq 0 (len (df s)).
Proof.
  intros Hd Hnames.
  destruct (remove_duplicates_returns self Hd)
    as (s1 & Hcall1 & Hschema1 & Hlen1).
  assert (unique_names (df s1)) as Hnames1.
  { unfold unique_names. by rewrite schema_column_names, Hschema1,
      <- schema_column_names. }
  set (s2 := handle_missing_values "auto" s1).
  assert (df s2 = map_columns filled (df s1)) as Hdf2
    by (by apply handle_missing_values_auto_df).
  assert (schema (df s2) = schema (df self)) as Hschema2.
  { rewrite Hdf2, schema_map_columns; [done|].
    intros s. split; [apply filled_name|apply filled_dtype]. }
  assert (len (df s2) = len (df s1)) as Hlen2 by (by rewrite Hdf2).
  assert (select_dtypes [object] (df s2) = select_dtypes [object] (df self))
    as Htext by (by apply select_dtypes_schema).
  unfold clean_with_text. rewrite Hcall1. cbn [and_then returning]. fold s2.
  case_bool_decide as Hcase.
  - destruct Hcase as [Hlen Htexts].
    destruct (standardize_text_columns_without_rows s2) as [s Hs].
    + rewrite Hlen2. by apply Hlen1.
    + by rewrite Htext.
    + exists s. by rewrite Hs.
  - assert (∃ s3, standardize_text_columns s2 = Returned s3) as [s3 Hs3].
    { destruct (decide (len (df self) = 0)) as [Hlen|Hlen].
      - exists s2. unfold standardize_text_columns. rewrite Htext.
        destruct (select_dtypes [object] (df self)); [done|].
        destruct Hcase. by split.
      - apply standardize_text_columns_returns. rewrite Hlen2.
        by intros ?%Hlen1. }
    rewrite Hs3. cbn [and_then returning]. eexists. split; [done|].
    apply index_reset_index.
Qed.

(** X17. On a rectangular table with unique column names, the chains of
    the locations and of the staff raise [ZeroDivisionError] exactly when
    the table has no rows and has a column of text, as a file with a header
    and no line gives; otherwise they return, with the rows labelled 0, 1,
    ... in a row. *)
Theorem chains_with_text_need_rows (self : DataCleaner) :
  rectangular (df self) → unique_names (df self) →
  if bool_decide (len (df self) = 0 ∧ select_dtypes [object] (df self) ≠ [])
  then (∃ s, clean_locations self = Raised ZeroDivisionError s) ∧
       (∃ s, clean_staff self = Raised ZeroDivisionError s)
  else (∃ s, clean_locations self = Returned s ∧
             index (df s) = seq 0 (len (df s))) ∧
       (∃ s, clean_staff self = Returned s ∧
             index (df s) = seq 0 (len (df s))).
Proof.
  intros Hd Hnames.
  pose proof (clean_with_text_outcome ["Location_ID"] self Hd Hnames) as Hl.
  pose proof (clean_with_text_outcome ["Cleaner_ID"; "Assigned_Location_ID"]
                self Hd Hnames) as Hs.
  by case_bool_decide.
Qed.

Lemma chains_with_text_need_rows_witness :
  rectangular header_only ∧ unique_names header_only ∧
  (∃ s, clean_locations (init header_only "Locations")
        = Raised ZeroDivisionError s) ∧
  (∃ s, clean_staff (init header_only "Locations")
        = Raised ZeroDivisionError s).
Proof.
  assert (rectangular header_only) as Hd
    by (split; [repeat constructor|discriminate]).
  assert (unique_names header_only) as Hnames
    by (apply (bool_decide_unpack _); vm_compute; exact I).
  split; [exact Hd|]. split; [exact Hnames|].
  apply (chains_with_text_need_rows (init header_only "Locations") Hd Hnames).
Defined.

(** X18. The chain of the financials, which has no
    [standardize_text_columns], returns on every rectangular table, also on
    one without rows, with at most the rows it was given, labelled 0, 1,
    ... in a row. *)
Theorem clean_financials_returns `{ToDatetime} (self : DataCleaner) :
  rectangular (df self) →
  ∃ s, clean_financials self = Returned s ∧
       index (df s) = seq 0 (len (df s)) ∧
       len (df s) ≤ len (df self).
Proof.
  intros Hd.
  destruct (remove_duplicates_returns self Hd) as (s1 & Hcall1 & Hschema1 & _).
  pose proof (remove_duplicates_len all_columns self) as Hlen1.
  rewrite Hcall1 in Hlen1. cbn [state] in Hlen1.
  unfold clean_financials. rewrite Hcall1. cbn [and_then returning].
  eexists. split; [done|]. split; [apply index_reset_index|].
  rewrite reset_index_len.
  etrans; [apply remove_extra_whitespace_len|]. rewrite df_validate_ids.
  etrans; [apply clean_numeric_columns_len|].
  etrans; [apply handle_missing_values_len|].
  etrans; [apply parse_dates_len|]. done.
Qed.

Lemma clean_financials_returns_witness :
  rectangular header_only ∧
  ∃ s, @clean_financials iso_dates (init header_only "Financials") = Returned s
       ∧ index (df s) = seq 0 (len (df s))
       ∧ len (df s) ≤ len header_only.
Proof.
  assert (rectangular header_only) as Hd
    by (split; [repeat constructor|discriminate]).
  split; [exact Hd|].
  apply (@clean_financials_returns iso_dates (init header_only "Financials") Hd).
Defined.

Lemma select_dtypes_column include d col :
  col ∈ select_dtypes include d ↔
  ∃ s, s ∈ columns d ∧ col_name s = col ∧ col_dtype s ∈ include.
Proof.
  unfold select_dtypes. rewrite list_elem_of_fmap. split.
  - intros (s & -> & [Hdtype Hs]%list_elem_of_filter). by exists s.
  - intros (s & Hs & <- & Hdtype). exists s. split; [done|].
    by apply list_elem_of_filter.
Qed.

(** [parse_dates] leaves the text columns that it does not visit. *)
Lemma parse_date_column_keeps_text `{ToDatetime} col col' self :
  col' ≠ col →
  col' ∈ select_dtypes [object] (df self) →
  col' ∈ select_dtypes [object] (df (parse_date_column col self)).
Proof.
  intros Hcol. rewrite !select_dtypes_column.
  intros (s & Hs & Hname & Hdtype). exists s. split; [|done].
  unfold parse_date_column. destruct (has_column _ _); [|done].
  destruct (to_datetime _); [by rewrite df_log|].
  assert (s ∈ columns (setitem (df self) col datetime64 l)) as Hs'.
  { unfold setitem. simpl. apply list_elem_of_fmap. exists s.
    split; [|done]. rewrite bool_decide_eq_false_2; [done|]. congruence. }
  by case_bool_decide; rewrite df_log, df_set_df.
Qed.

(** X19. The chain of the tickets returns whenever the table, rectangular
    and with unique column names, has rows, and the rows are then labelled
    0, 1, ... in a row; without rows it raises [ZeroDivisionError] as soon
    as the table has a column of text other than [Date_reported], whatever
    pandas makes of the dates. *)
Theorem clean_tickets_needs_rows `{ToDatetime} (self : DataCleaner) :
  rectangular (df self) → unique_names (df self) →
  (len (df self) ≠ 0 →
   ∃ s, clean_tickets self = Returned s ∧ index (df s) = seq 0 (len (df s))) ∧
  (len (df self) = 0 →
   (∃ col, col ∈ select_dtypes [object] (df self) ∧ col ≠ "Date_reported") →
   ∃ s, clean_tickets self = Raised ZeroDivisionError s).
Proof.
  intros Hd Hnames.
  destruct (remove_duplicates_returns self Hd)
    as (s1 & Hcall1 & Hschema1 & Hlen1).
  set (s2 := parse_dates (Some ["Date_reported"]) s1).
  set (s3 := handle_missing_values "auto" s2).
  assert (column_names (df s2) = column_names (df self)) as Hnames2.
  { unfold s2, parse_dates. cbn [foldl].
    by rewrite parse_date_column_names, !schema_column_names, Hschema1. }
  assert (len (df s2) = len (df s1)) as Hlen2.
  { unfold s2, parse_dates, parse_date_column. cbn [foldl].
    destruct (has_column _ _); [|done]. destruct (to_datetime _); [done|].
    by case_bool_decide. }
  assert (df s3 = map_columns filled (df s2)) as Hdf3.
  { apply handle_missing_values_auto_df. unfold unique_names.
    by rewrite Hnames2. }
  assert (len (df s3) = len (df s1)) as Hlen3 by (by rewrite Hdf3).
  unfold clean_tickets. rewrite Hcall1. cbn [and_then returning].
  fold s2. fold s3. split.
  - intros Hlen.
    destruct (standardize_text_columns_returns s3) as [s4 Hs4].
    { rewrite Hlen3. by intros ?%Hlen1. }
    rewrite Hs4. cbn [and_then returning]. eexists. split; [done|].
    apply index_reset_index.
  - intros Hlen (col & Hcol & Hdate).
    destruct (standardize_text_columns_without_rows s3) as [s Hs].
    + rewrite Hlen3. by apply Hlen1.
    + assert (col ∈ select_dtypes [object] (df s2)) as Hcol2.
      { unfold s2, parse_dates. cbn [foldl].
        apply parse_date_column_keeps_text; [done|].
        by rewrite (select_dtypes_schema _ _ (df self)). }
      rewrite (select_dtypes_schema _ (df s3) (df s2)).
      * intros Hnil. rewrite Hnil in Hcol2. by apply elem_of_nil in Hcol2.
      * rewrite Hdf3. apply schema_map_columns.
        intros s'. split; [apply filled_name|apply filled_dtype].
    + exists s. by rewrite Hs.
Qed.

Lemma clean_tickets_needs_rows_witness :
  rectangular header_only ∧ unique_names header_only ∧
  ∃ s, @clean_tickets iso_dates (init header_only "Tickets")
       = Raised ZeroDivisionError s.
Proof.
  assert (rectangular header_only) as Hd
    by (split; [repeat constructor|discriminate]).
  assert (unique_names header_only) as Hnames
    by (apply (bool_decide_unpack _); vm_compute; exact I).
  split; [exact Hd|]. split; [exact Hnames|].
  apply (@clean_tickets_needs_rows iso_dates (init header_only "Tickets")
           Hd Hnames).
  - reflexivity.
  - exists "Status". split; [|discriminate].
    apply (bool_decide_unpack _). vm_compute. exact I.
Defined.
